(** * SMS phishing detector: the response normaliser and the highlighter

    A shallow embedding of [app.py]: the JSON payload decoded from the
    model's reply, the field-by-field normalisation done by
    [call_gemini_sms_image], the regular-expression highlighter
    [highlight_phrases] and the [index] route.

    Python text is a sequence of Unicode code points.  Everything the
    program does on ASCII text is defined here; what CPython looks up in
    the Unicode database, the printing and parsing of floats, the
    iteration order of hashed sets and the reply of the remote model are
    the fields of the class [Runtime]. *)

From Stdlib Require Import ZArith NArith List String Ascii Bool Lia.
From Stdlib Require Import Floats DecimalString Permutation Sorted.
Import ListNotations.

Open Scope string_scope.
Open Scope list_scope.

(** ** Text *)

Definition codepoint := N.
Definition pystr := list codepoint.

(** A literal of the source, given by its ASCII characters. *)
Definition lit (s : string) : pystr := map N_of_ascii (list_ascii_of_string s).
Coercion lit : string >-> pystr.

Fixpoint pystr_eqb (s t : pystr) : bool :=
  match s, t with
  | [], [] => true
  | a :: s', b :: t' => N.eqb a b && pystr_eqb s' t'
  | _, _ => false
  end.

(** [x in {...}] for a set display of string literals. *)
Definition str_in (s : pystr) (l : list pystr) : bool := existsb (pystr_eqb s) l.

Definition is_ascii (c : codepoint) : bool := (c <? 128)%N.

Definition ascii_lower (c : codepoint) : codepoint :=
  if ((65 <=? c) && (c <=? 90))%N then (c + 32)%N else c.

(** [_Py_ascii_whitespace]: TAB, LF, VT, FF, CR, FS, GS, RS, US and SPACE. *)
Definition ascii_isspace (c : codepoint) : bool :=
  ((9 <=? c) && (c <=? 13) || (28 <=? c) && (c <=? 31) || (c =? 32))%N.

Definition ascii_isalnum (c : codepoint) : bool :=
  ((48 <=? c) && (c <=? 57) || (65 <=? c) && (c <=? 90)
   || (97 <=? c) && (c <=? 122))%N.

Fixpoint join (sep : pystr) (l : list pystr) : pystr :=
  match l with
  | [] => []
  | [s] => s
  | s :: l' => s ++ sep ++ join sep l'
  end.

(** [len(s)] *)
Definition py_len (s : pystr) : nat := List.length s.

(** [str(n)] for an int. *)
Definition int_str (z : Z) : pystr := lit (NilZero.string_of_int (Z.to_int z)).

(** ** JSON payloads

    What [json.loads] returns: [None], booleans, ints, floats (with NaN
    and the infinities), strings, lists, and dicts with string keys in
    insertion order. *)

#[warnings="-register-all"]
Inductive PyVal : Type :=
| VNone
| VBool (b : bool)
| VInt (z : Z)
| VFloat (f : float)
| VStr (s : pystr)
| VList (l : list PyVal)
| VDict (d : list (pystr * PyVal)).

Abbreviation pydict := (list (pystr * PyVal)).

Fixpoint dict_lookup (key : pystr) (d : pydict) : option PyVal :=
  match d with
  | [] => None
  | (k, v) :: d' => if pystr_eqb key k then Some v else dict_lookup key d'
  end.

(** [d.get(key, default)] on a dict. *)
Definition dict_get (d : pydict) (key : pystr) (default : PyVal) : PyVal :=
  match dict_lookup key d with
  | Some x => x
  | None => default
  end.

(** ** Exceptions *)

Inductive exn : Type :=
  AttributeError | TypeError | ValueError | OverflowError | OSError.

Inductive result (A : Type) : Type :=
| Ok (a : A)
| Raise (e : exn).
Arguments Ok {A} a.
Arguments Raise {A} e.

Definition bind {A B} (c : result A) (k : A -> result B) : result B :=
  match c with
  | Ok a => k a
  | Raise e => Raise e
  end.

Notation "x <- c ;; k" := (bind c (fun x => k))
  (at level 61, c at next level, right associativity).

(** A loop body run on each element in turn, stopping at the first raise. *)
Fixpoint for_each {A B} (f : A -> result B) (l : list A) : result (list B) :=
  match l with
  | [] => Ok []
  | x :: l' => y <- f x ;; ys <- for_each f l' ;; Ok (y :: ys)
  end.

(** The outcome of the [try] body of [call_gemini_sms_image] (opening the
    image, calling the model, [json.loads] of its text): the decoded
    payload, or [str(e)] of the [Exception] that was raised. *)
Inductive model_outcome : Type :=
| Replied (data : PyVal)
| Failed (msg : pystr).

(** ** The runtime the program runs on *)

Class Runtime : Type := {
  (** [s.lower()] when [s] is not pure ASCII *)
  unicode_lower : pystr -> pystr;
  (** [_PyUnicode_IsWhitespace] on a code point above 127 *)
  unicode_isspace : codepoint -> bool;
  (** [Py_UNICODE_ISALNUM] on a code point above 127 *)
  unicode_isalnum : codepoint -> bool;
  (** whether a literal pattern character matches a text character under
      [(?i)] when one of them is above 127 *)
  unicode_ignorecase_eq : codepoint -> codepoint -> bool;
  (** [float(s)] for a string; [None] stands for [ValueError] *)
  float_of_str : pystr -> option float;
  (** [repr(x)] for a float *)
  float_repr : float -> pystr;
  (** [repr(s)] for a string *)
  str_repr : pystr -> pystr;
  (** [f"{x:.2f}"] *)
  float_format2 : float -> pystr;
  (** the elements of [set(l)], in the order the set iterates them *)
  set_iter : list pystr -> list pystr;
  set_iter_nodup : forall l, NoDup (set_iter l);
  set_iter_elems : forall l x, In x (set_iter l) <-> In x l;
  (** [list(set(l))] for hashable JSON values; its elements are among
      those of [l] *)
  set_list : list PyVal -> list PyVal;
  set_list_incl : forall l, incl (set_list l) l;
  (** the [try] body of [call_gemini_sms_image] on an image path *)
  model_call : pystr -> model_outcome;
  (** whether [file.save(path)] can write to [path] *)
  fs_writable : pystr -> bool
}.

(** ** Built-ins *)

Section Builtins.
Context {rt : Runtime}.

(** [unicode_lower_impl]: the ASCII fast path, else the case tables. *)
Definition py_lower (s : pystr) : pystr :=
  if forallb is_ascii s then map ascii_lower s else unicode_lower s.

Definition py_isspace (c : codepoint) : bool :=
  if is_ascii c then ascii_isspace c else unicode_isspace c.

Fixpoint lstrip (s : pystr) : pystr :=
  match s with
  | c :: s' => if py_isspace c then lstrip s' else s
  | [] => []
  end.

(** [s.strip()] *)
Definition py_strip (s : pystr) : pystr := rev (lstrip (rev (lstrip s))).

Fixpoint py_repr (v : PyVal) : pystr :=
  match v with
  | VNone => "None"
  | VBool true => "True"
  | VBool false => "False"
  | VInt z => int_str z
  | VFloat f => float_repr f
  | VStr s => str_repr s
  | VList l => lit "[" ++ join ", " (map py_repr l) ++ lit "]"
  | VDict d =>
      lit "{"
      ++ join ", " (map (fun kv => match kv with
                                   | (k, x) => str_repr k ++ lit ": " ++ py_repr x
                                   end) d)
      ++ lit "}"
  end.

(** [str(v)] *)
Definition py_str (v : PyVal) : pystr :=
  match v with
  | VStr s => s
  | _ => py_repr v
  end.

(** [float(n)] for an int: round to nearest even, [OverflowError] beyond
    the largest double. *)
Definition int_to_float (z : Z) : result float :=
  match binary_normalize prec emax z 0 false with
  | S754_infinity _ => Raise OverflowError
  | sf => Ok (SF2Prim sf)
  end.

(** [float(v)] *)
Definition py_float (v : PyVal) : result float :=
  match v with
  | VFloat f => Ok f
  | VInt z => int_to_float z
  | VBool b => Ok (if b then 1%float else 0%float)
  | VStr s => match float_of_str s with
              | Some f => Ok f
              | None => Raise ValueError
              end
  | VNone | VList _ | VDict _ => Raise TypeError
  end.

(** [min(a, b)] and [max(a, b)]: the first argument unless the second is
    strictly smaller (larger). *)
Definition py_min (a b : float) : float := if (b <? a)%float then b else a.
Definition py_max (a b : float) : float := if (a <? b)%float then b else a.

(** [v.get(key, default)]: only a dict has the method. *)
Definition py_get (v : PyVal) (key : pystr) (default : PyVal) : result PyVal :=
  match v with
  | VDict d => Ok (dict_get d key default)
  | _ => Raise AttributeError
  end.

(** The elements a [for] loop (or [set], or a comprehension) draws from
    [v]: the items of a list, the characters of a string, the keys of a
    dict; anything else is not iterable. *)
Definition py_iter (v : PyVal) : result (list PyVal) :=
  match v with
  | VList l => Ok l
  | VStr s => Ok (map (fun c => VStr [c]) s)
  | VDict d => Ok (map (fun kv => VStr (fst kv)) d)
  | VNone | VBool _ | VInt _ | VFloat _ => Raise TypeError
  end.

Definition hashable (v : PyVal) : bool :=
  match v with
  | VList _ | VDict _ => false
  | _ => true
  end.

(** [list(set(v))] *)
Definition py_list_set (v : PyVal) : result (list PyVal) :=
  items <- py_iter v ;;
  if forallb hashable items then Ok (set_list items) else Raise TypeError.

(** [v.strip()]: only a string has the method. *)
Definition py_strip_method (v : PyVal) : result pystr :=
  match v with
  | VStr s => Ok (py_strip s)
  | _ => Raise AttributeError
  end.

End Builtins.

(** ** The result of an analysis *)

(** One element of [urls]: the dict [{"url": u, "status": s}]. *)
Record UrlEntry : Type := {
  url : pystr;
  status : pystr
}.

Record GeminiSMSResult : Type := {
  verdict : pystr;
  confidence : float;
  reasons : list pystr;
  risky_phrases : list PyVal;
  urls : list UrlEntry;
  user_message : pystr
}.

(** The set display [{"safe", "suspicious", "phishing"}]. *)
Definition known_verdicts : list pystr :=
  [lit "safe"; lit "suspicious"; lit "phishing"].

(** ** The response normaliser: [call_gemini_sms_image], lines 96-126 *)

Section Normaliser.
Context {rt : Runtime}.

(** Lines 96-98. *)
Definition norm_verdict (data : PyVal) : result pystr :=
  v <- py_get data "verdict" (VStr "unknown") ;;
  let verdict := py_lower (py_str v) in
  Ok (if negb (str_in verdict known_verdicts) then lit "unknown" else verdict).

(** Lines 100-104: [except Exception] covers the [.get] as well. *)
Definition norm_confidence (data : PyVal) : float :=
  let confidence :=
    match (v <- py_get data "confidence" (VFloat 0) ;; py_float v) with
    | Ok f => f
    | Raise _ => 0%float
    end in
  py_max 0 (py_min 1 confidence).

(** Line 106. *)
Definition norm_reasons (data : PyVal) : result (list pystr) :=
  v <- py_get data "reasons" (VList []) ;;
  items <- py_iter v ;;
  Ok (firstn 6 (map py_str items)).

(** Line 107. *)
Definition norm_risky_phrases (data : PyVal) : result (list PyVal) :=
  v <- py_get data "risky_phrases" (VList []) ;;
  py_list_set v.

(** Lines 111-115, the body of the loop over [urls]. *)
Definition url_entry (item : PyVal) : result UrlEntry :=
  u <- py_get item "url" (VStr "") ;;
  let u := py_strip (py_str u) in
  s <- py_get item "status" (VStr "") ;;
  let s := py_lower (py_str s) in
  let s := if negb (str_in s known_verdicts) then lit "suspicious" else s in
  Ok {| url := u; status := s |}.

(** Lines 109-115. *)
Definition norm_urls (data : PyVal) : result (list UrlEntry) :=
  v <- py_get data "urls" (VList []) ;;
  items <- py_iter v ;;
  for_each url_entry items.

(** Line 117: [x or y] is [y] when the string [x] is empty. *)
Definition norm_user_message (data : PyVal) : result pystr :=
  v <- py_get data "user_message" (VStr "") ;;
  s <- py_strip_method v ;;
  Ok (match s with
      | [] => lit "No explanation provided."
      | _ => s
      end).

(** Lines 96-126, in the order the statements run. *)
Definition normalize (data : PyVal) : result GeminiSMSResult :=
  verdict <- norm_verdict data ;;
  let confidence := norm_confidence data in
  reasons <- norm_reasons data ;;
  risky_phrases <- norm_risky_phrases data ;;
  urls_list <- norm_urls data ;;
  user_message <- norm_user_message data ;;
  Ok {| verdict := verdict;
        confidence := confidence;
        reasons := reasons;
        risky_phrases := risky_phrases;
        urls := urls_list;
        user_message := user_message |}.

(** Lines 87-94: the payload built in the [except] branch. *)
Definition failure_payload (msg : pystr) : PyVal :=
  VDict [ (lit "verdict", VStr "unknown");
          (lit "confidence", VFloat 0);
          (lit "reasons", VList [VStr (lit "Gemini error: " ++ msg)]);
          (lit "risky_phrases", VList []);
          (lit "urls", VList []);
          (lit "user_message", VStr "Automatic analysis failed.") ].

(** Lines 58-126. *)
Definition call_gemini_sms_image (image_path : pystr) : result GeminiSMSResult :=
  let data :=
    match model_call image_path with
    | Replied data => data
    | Failed msg => failure_payload msg
    end in
  normalize data.

End Normaliser.

(** ** The highlighter: [highlight_phrases], lines 48-53 *)

(** [markupsafe.escape] on one character. *)
Definition html_escape_char (c : codepoint) : pystr :=
  match c with
  | 38%N => lit "&amp;"
  | 60%N => lit "&lt;"
  | 62%N => lit "&gt;"
  | 39%N => lit "&#39;"
  | 34%N => lit "&#34;"
  | _ => [c]
  end.

Definition html_escape (s : pystr) : pystr := flat_map html_escape_char s.

(** The replacement template of line 52, the raw string
    [r"<mark>\\1</mark>"]: two backslashes, then the digit 1. *)
Definition mark_template : pystr := "<mark>\\1</mark>".

(** Expansion of a replacement template by [re]: a backslash followed by a
    backslash is one literal backslash, a backslash followed by the digit
    1 is the text of group 1, any other character stands for itself (the
    template of line 52 has no other escape). *)
Fixpoint expand_template (tmpl group1 : pystr) : pystr :=
  match tmpl with
  | 92%N :: 92%N :: t => 92%N :: expand_template t group1
  | 92%N :: 49%N :: t => group1 ++ expand_template t group1
  | c :: t => c :: expand_template t group1
  | [] => []
  end.

(** [sorted(l, key=len, reverse=True)]: descending length, elements of
    equal length in the order they had in [l]. *)
Fixpoint insert_by_len (x : pystr) (l : list pystr) : list pystr :=
  match l with
  | [] => [x]
  | y :: l' =>
      if (py_len y <=? py_len x)%nat then x :: l else y :: insert_by_len x l'
  end.

Definition sorted_by_len_desc (l : list pystr) : list pystr :=
  fold_right insert_by_len [] l.

(** The order of the sorted list: no element is longer than one to its
    left. *)
Definition not_longer (p q : pystr) : Prop := py_len q <= py_len p.

Fixpoint starts_with (p s : pystr) : bool :=
  match p, s with
  | [], _ => true
  | a :: p', c :: s' => (a =? c)%N && starts_with p' s'
  | _ :: _, [] => false
  end.

(** Whether an opening marker occurs in [s] while [depth] markers, or
    more, opened to its left are still unclosed. *)
Fixpoint nested_marks_from (depth : nat) (s : pystr) : bool :=
  match s with
  | [] => false
  | _ :: s' =>
      if starts_with "<mark>" s
      then (0 <? depth)%nat || nested_marks_from (S depth) s'
      else if starts_with "</mark>" s
           then nested_marks_from (pred depth) s'
           else nested_marks_from depth s'
  end.

(** A marker inside a marker. *)
Definition nested_marks (s : pystr) : bool := nested_marks_from 0 s.

Section Highlighter.
Context {rt : Runtime}.

(** [\w] of a str pattern: alphanumeric or underscore. *)
Definition is_word (c : codepoint) : bool :=
  if is_ascii c then ascii_isalnum c || (c =? 95)%N else unicode_isalnum c.

(** A literal of the pattern against a character of the text, under [(?i)]. *)
Definition ignorecase_eq (a c : codepoint) : bool :=
  if is_ascii a && is_ascii c
  then (ascii_lower a =? ascii_lower c)%N
  else unicode_ignorecase_eq a c.

(** [\b] between the character before the position ([None] at the start
    of the text) and the text from the position on. *)
Definition at_boundary (prev : option codepoint) (rest : pystr) : bool :=
  xorb (match prev with Some c => is_word c | None => false end)
       (match rest with c :: _ => is_word c | [] => false end).

(** [re.escape(p)] as a pattern: [p], character by character.  Returns the
    matched text and what follows it. *)
Fixpoint match_literal (p s : pystr) : option (pystr * pystr) :=
  match p, s with
  | [], _ => Some ([], s)
  | a :: p', c :: s' =>
      if ignorecase_eq a c
      then match match_literal p' s' with
           | Some (m, r) => Some (c :: m, r)
           | None => None
           end
      else None
  | _ :: _, [] => None
  end.

(** The pattern of line 51, [(?i)\b(<p>)\b], tried at one position; the
    result is the text of group 1. *)
Definition match_at (p : pystr) (prev : option codepoint) (s : pystr)
  : option pystr :=
  if at_boundary prev s
  then match match_literal p s with
       | Some (m, r) =>
           if at_boundary (last (map Some m) prev) r then Some m else None
       | None => None
       end
  else None.

(** [pattern.sub(tmpl, s)], scanning left to right.  [prev] is the
    character before the position and [skip] counts the characters still
    inside the match found last.  After an empty match the scan must
    advance, so the next character is copied. *)
Fixpoint sub_scan (p tmpl : pystr) (prev : option codepoint) (skip : nat)
  (s : pystr) : pystr :=
  match s with
  | [] =>
      match match_at p prev [] with
      | Some m => expand_template tmpl m
      | None => []
      end
  | c :: s' =>
      match skip with
      | S k => sub_scan p tmpl (Some c) k s'
      | O =>
          match match_at p prev s with
          | Some m =>
              expand_template tmpl m
              ++ match py_len m with
                 | O => c :: sub_scan p tmpl (Some c) 0 s'
                 | S k => sub_scan p tmpl (Some c) k s'
                 end
          | None => c :: sub_scan p tmpl (Some c) 0 s'
          end
      end
  end.

(** Lines 51-52 for one phrase. *)
Definition mark_phrase (escaped p : pystr) : pystr :=
  sub_scan p mark_template None 0 escaped.

(** The phrases in the order the loop of line 50 visits them. *)
Definition phrase_order (phrases : list pystr) : list pystr :=
  sorted_by_len_desc (set_iter phrases).

(** Lines 48-53. *)
Definition highlight_phrases (text : pystr) (phrases : list pystr) : pystr :=
  let escaped := html_escape (match text with
                              | [] => lit ""
                              | _ => text
                              end) in
  fold_left mark_phrase (phrase_order phrases) escaped.

End Highlighter.

(** ** The route: [index], lines 131-169 *)

(** The methods the route receives: the two it lists and [HEAD], which
    Flask adds. *)
Inductive http_method : Type := GET | POST | HEAD.

(** An uploaded file; it is falsy when its filename is empty. *)
Record FileStorage : Type := {
  filename : pystr;
  content : list N
}.

Record Request : Type := {
  method : http_method;
  (** [request.files.get("image")] *)
  image_file : option FileStorage
}.

(** What a request leaves behind: the files written by [file.save] and the
    image paths handed to the model, latest first. *)
Record World : Type := {
  saved : list (pystr * list N);
  analysed : list pystr
}.

(** The dict built at lines 148-163. *)
Record Analysis : Type := {
  a_badge : pystr;
  a_verdict : pystr;
  a_confidence : pystr;
  a_reasons : list pystr;
  a_risky_phrases : list PyVal;
  a_urls : list UrlEntry;
  a_user_message : pystr;
  a_recommendations : list pystr
}.

(** The arguments [render_template] gets at lines 165-169. *)
Record Page : Type := {
  image_path : option pystr;
  sms_text : pystr;
  highlighted_text : pystr;
  analysis : option Analysis
}.

Definition UPLOAD_FOLDER : pystr := "static/uploads".

(** [os.path.join(a, b)] on POSIX. *)
Definition path_join (a b : pystr) : pystr :=
  match b with
  | 47%N :: _ => b
  | _ => match a with
         | [] => b
         | _ => if (last a 0 =? 47)%N then a ++ b else a ++ lit "/" ++ b
         end
  end.

(** Line 144. *)
Definition badge_of (verdict : pystr) : pystr :=
  if pystr_eqb verdict "safe" then 9989%N :: lit " Safe"
  else if pystr_eqb verdict "suspicious" then 9888%N :: lit " Suspicious"
  else if pystr_eqb verdict "phishing" then 10060%N :: lit " Phishing"
  else 10068%N :: lit " Unknown".

(** The caption of line 146, with its en dash. *)
Definition ocr_caption : pystr :=
  lit "(OCR skipped " ++ 8211%N :: lit " Gemini vision used)".

(** Lines 156-162. *)
Definition recommendations : list pystr :=
  [ lit "Don" ++ 8217%N :: lit "t click links in suspicious messages.";
    lit "Never share passwords or OTP over SMS.";
    lit "Contact the organization via official channels.";
    lit "Report phishing SMS to your carrier or cybercrime authority.";
    lit "Delete the SMS if phishing is confirmed." ].

(** The page of a request that analyses nothing: the initial values of
    line 133. *)
Definition blank_page : Page :=
  {| image_path := None;
     sms_text := "";
     highlighted_text := "";
     analysis := None |}.

Section Routes.
Context {rt : Runtime}.

(** [highlight_phrases] on the phrases of a result.  They came out of a
    set, so each is [None], a bool, a number or a string; [len] of
    anything but a string raises [TypeError] in [sorted]. *)
Definition highlight_risky (text : pystr) (phrases : list PyVal)
  : result pystr :=
  ps <- for_each (fun v => match v with
                           | VStr s => Ok s
                           | _ => Raise TypeError
                           end) phrases ;;
  Ok (highlight_phrases text ps).

(** Lines 138-163, with a truthy [file]. *)
Definition analyse_upload (file : FileStorage) (w : World)
  : result Page * World :=
  let uploaded_path := path_join UPLOAD_FOLDER (filename file) in
  if fs_writable uploaded_path then
    let w := {| saved := (uploaded_path, content file) :: saved w;
                analysed := uploaded_path :: analysed w |} in
    (gem <- call_gemini_sms_image uploaded_path ;;
     let badge := badge_of (verdict gem) in
     highlighted <- highlight_risky ocr_caption (risky_phrases gem) ;;
     Ok {| image_path := Some uploaded_path;
           sms_text := "";
           highlighted_text := highlighted;
           analysis := Some {| a_badge := badge;
                               a_verdict := verdict gem;
                               a_confidence := float_format2 (confidence gem);
                               a_reasons := reasons gem;
                               a_risky_phrases := risky_phrases gem;
                               a_urls := urls gem;
                               a_user_message := user_message gem;
                               a_recommendations := recommendations |} |},
     w)
  else (Raise OSError, w).

(** Lines 132-169.  [file and file.filename] holds for a file that is
    present and has a non-empty filename. *)
Definition index (req : Request) (w : World) : result Page * World :=
  match method req with
  | POST =>
      match image_file req with
      | Some file =>
          match filename file with
          | [] => (Ok blank_page, w)
          | _ :: _ => analyse_upload file w
          end
      | None => (Ok blank_page, w)
      end
  | GET | HEAD => (Ok blank_page, w)
  end.

End Routes.

(** ** A runtime for running the model on ASCII inputs

    The Unicode tables are never consulted on ASCII text; a set iterates
    its distinct elements in list order; no string parses as a float and
    the printing of floats is a placeholder. *)

Definition pystr_eq_dec : forall s t : pystr, {s = t} + {s <> t} :=
  list_eq_dec N.eq_dec.

Definition ascii_runtime (reply : model_outcome) : Runtime := {|
  unicode_lower := fun s => s;
  unicode_isspace := fun _ => false;
  unicode_isalnum := fun _ => false;
  unicode_ignorecase_eq := N.eqb;
  float_of_str := fun _ => None;
  float_repr := fun _ => lit "<float>";
  str_repr := fun s => lit "'" ++ s ++ lit "'";
  float_format2 := fun _ => lit "<float>";
  set_iter := nodup pystr_eq_dec;
  set_iter_nodup := NoDup_nodup pystr_eq_dec;
  set_iter_elems := fun l x => nodup_In pystr_eq_dec l x;
  set_list := fun l => l;
  set_list_incl := @incl_refl PyVal;
  model_call := fun _ => reply;
  fs_writable := fun _ => true
|}.

(** The runtime of a request whose model call times out. *)
Definition rt_offline : Runtime := ascii_runtime (Failed "timeout").

(** A reply in the advertised format. *)
Definition reply_phishing : pydict :=
  [ (lit "verdict", VStr "PHISHING");
    (lit "confidence", VFloat 1.5);
    (lit "reasons", VList [VStr "urgent call to action"; VInt 7]);
    (lit "risky_phrases", VList [VStr "OTP"; VStr "urgent"]);
    (lit "urls", VList [VDict [(lit "url", VStr " http://x ");
                               (lit "status", VStr "weird")]]);
    (lit "user_message", VStr "  Do not reply.  ") ].

(** An upload without a file name. *)
Definition post_empty_file : Request :=
  {| method := POST;
     image_file := Some {| filename := []; content := [] |} |}.

Definition no_uploads : World := {| saved := []; analysed := [] |}.

(** The six keys the normaliser reads (lines 96-117). *)
Definition field_names : list pystr :=
  [lit "verdict"; lit "confidence"; lit "reasons"; lit "risky_phrases";
   lit "urls"; lit "user_message"].

(** A string value. *)
Definition is_str (v : PyVal) : bool :=
  match v with
  | VStr _ => true
  | _ => false
  end.

(** A mapping value. *)
Definition is_dict (v : PyVal) : bool :=
  match v with
  | VDict _ => true
  | _ => false
  end.

(** Text with no whitespace at either end. *)
Definition no_outer_space {rt : Runtime} (s : pystr) : Prop :=
  match s with
  | c :: _ => py_isspace c = false
  | [] => True
  end
  /\ match rev s with
     | c :: _ => py_isspace c = false
     | [] => True
     end.

(** The runtime of a request whose model call returns [reply_phishing]. *)
Definition rt_online : Runtime := ascii_runtime (Replied (VDict reply_phishing)).

(** An upload named [sms.png]. *)
Definition sms_png : FileStorage :=
  {| filename := lit "sms.png"; content := [137; 80; 78; 71]%N |}.

Definition post_sms_png : Request :=
  {| method := POST; image_file := Some sms_png |}.

(** The text from each position on, the end included. *)
Fixpoint tails (s : pystr) : list pystr :=
  s :: match s with
       | [] => []
       | _ :: s' => tails s'
       end.

(** Whether the characters of [p] occur somewhere in [s], case ignored as
    the pattern of line 51 does. *)
Definition occurs {rt : Runtime} (p s : pystr) : bool :=
  existsb (fun t => match match_literal p t with
                    | Some _ => true
                    | None => false
                    end) (tails s).

(** A reply whose urls are mappings with stray whitespace, an upper-case
    status, an unknown status and missing entries. *)
Definition reply_urls_mixed : pydict :=
  [ (lit "urls",
     VList [ VDict [(lit "url", VStr " http://x ");
                    (lit "status", VStr "weird")];
             VDict [(lit "url", VStr "https://bank.example/login  ");
                    (lit "status", VStr "SAFE")];
             VDict [] ]) ].

(** Phrases two of which have the same length. *)
Definition phrases_with_tie : list pystr :=
  [lit "now"; lit "act now"; lit "pay"].

(** What lines 111-115 make of one mapping. *)
Definition entry_of {rt : Runtime} (u : pydict) (e : UrlEntry) : Prop :=
  let raw := py_str (dict_get u "url" (VStr "")) in
  let s := py_lower (py_str (dict_get u "status" (VStr ""))) in
  (exists lead trail, raw = lead ++ url e ++ trail
                      /\ forallb py_isspace lead = true
                      /\ forallb py_isspace trail = true)
  /\ no_outer_space (url e)
  /\ (dict_lookup "url" u = None -> url e = [])
  /\ status e = (if str_in s known_verdicts then s else lit "suspicious")
  /\ In (status e) known_verdicts
  /\ (dict_lookup "status" u = None -> status e = lit "suspicious")
  /\ (status e = lit "safe" -> s = lit "safe")
  /\ (forall t, dict_lookup "status" u = Some (VStr t) ->
                forallb is_ascii t = true -> s = map ascii_lower t).

(** * Properties *)

Lemma pystr_eqb_eq (s t : pystr) : pystr_eqb s t = true <-> s = t.
Proof.
  revert t; induction s as [|a s IH]; intros [|b t]; simpl;
    try (split; [discriminate | discriminate]); try tauto.
  rewrite andb_true_iff, N.eqb_eq, IH.
  split; [intros [-> ->]; reflexivity | intros H; inversion H; auto].
Qed.

Lemma pystr_eqb_refl (s : pystr) : pystr_eqb s s = true.
Proof. apply pystr_eqb_eq; reflexivity. Qed.

Lemma str_in_In (s : pystr) (l : list pystr) : str_in s l = true <-> In s l.
Proof.
  unfold str_in. rewrite existsb_exists. split.
  - intros (t & Ht & E). apply pystr_eqb_eq in E. subst. assumption.
  - intros H. exists s. split; [assumption | apply pystr_eqb_refl].
Qed.

Lemma bind_ok_inv {A B} (c : result A) (k : A -> result B) (b : B) :
  bind c k = Ok b -> exists a, c = Ok a /\ k a = Ok b.
Proof. destruct c as [a|e]; simpl; [eauto | discriminate]. Qed.

Section NormaliserFacts.
Context {rt : Runtime}.

Lemma set_list_nil : set_list [] = [].
Proof.
  destruct (set_list []) as [|x l] eqn:E; [reflexivity|].
  exfalso. apply (set_list_incl [] x). rewrite E. left; reflexivity.
Qed.

(** A payload that is not a dict stops the normaliser at line 96. *)
Lemma normalize_not_dict (data : PyVal) :
  (forall d, data <> VDict d) -> normalize data = Raise AttributeError.
Proof.
  intros H. destruct data; try reflexivity. exfalso. eapply H; reflexivity.
Qed.

(** The fields of a result are what the six steps computed. *)
Lemma normalize_ok_inv (data : PyVal) (r : GeminiSMSResult) :
  normalize data = Ok r ->
  norm_verdict data = Ok (verdict r)
  /\ confidence r = norm_confidence data
  /\ norm_reasons data = Ok (reasons r)
  /\ norm_risky_phrases data = Ok (risky_phrases r)
  /\ norm_urls data = Ok (urls r)
  /\ norm_user_message data = Ok (user_message r).
Proof.
  unfold normalize. intros H.
  apply bind_ok_inv in H as (v & Hv & H).
  apply bind_ok_inv in H as (rs & Hrs & H).
  apply bind_ok_inv in H as (ps & Hps & H).
  apply bind_ok_inv in H as (us & Hus & H).
  apply bind_ok_inv in H as (um & Hum & H).
  injection H as <-. simpl. repeat split; assumption.
Qed.

Lemma normalize_ok_dict (data : PyVal) (r : GeminiSMSResult) :
  normalize data = Ok r -> exists d, data = VDict d.
Proof.
  intros H. destruct data; try discriminate H. eauto.
Qed.

(** Lines 96-98 never raise on a dict. *)
Lemma norm_verdict_dict (d : pydict) :
  let v := py_lower (py_str (dict_get d "verdict" (VStr "unknown"))) in
  norm_verdict (VDict d)
  = Ok (if str_in v known_verdicts then v else lit "unknown").
Proof.
  intros v. unfold norm_verdict, py_get, bind. fold v.
  destruct (str_in v known_verdicts); reflexivity.
Qed.


(** Whatever the payload, a returned verdict is one of the four. *)
Lemma verdict_always_known (data : PyVal) (r : GeminiSMSResult) :
  normalize data = Ok r ->
  In (verdict r) [lit "safe"; lit "suspicious"; lit "phishing"; lit "unknown"].
Proof.
  intros H. destruct (normalize_ok_dict _ _ H) as (d & ->).
  apply normalize_ok_inv in H as (Hv & _).
  rewrite norm_verdict_dict in Hv. cbv zeta in Hv.
  remember (py_lower (py_str (dict_get d "verdict" (VStr "unknown")))) as v.
  assert (Hr : verdict r = if str_in v known_verdicts then v else lit "unknown")
    by congruence.
  rewrite Hr. clear Hr Hv.
  destruct (str_in v known_verdicts) eqn:E.
  - apply str_in_In in E. unfold known_verdicts in E. simpl in E. simpl.
    tauto.
  - simpl. tauto.
Qed.

(** C4 (failing input): with the number 5 as [user_message] the normaliser
    raises [AttributeError] at line 117 instead of returning the text "5". *)
Theorem user_message_number_raises :
  normalize (VDict [(lit "user_message", VInt 5)]) = Raise AttributeError.
Proof.
  unfold normalize, norm_risky_phrases, py_list_set. simpl.
  reflexivity.
Qed.

(** On a string the message step trims, and falls back on the fixed
    sentence when nothing is left, so the message of a result is never
    empty. *)
Lemma user_message_nonempty (data : PyVal) (r : GeminiSMSResult) :
  normalize data = Ok r -> user_message r <> [].
Proof.
  intros H. apply normalize_ok_inv in H as (_ & _ & _ & _ & _ & H).
  unfold norm_user_message in H.
  apply bind_ok_inv in H as (v & _ & H).
  apply bind_ok_inv in H as (s & _ & H).
  injection H as <-. destruct s; discriminate.
Qed.

(** C5: when the model call or the decoding of its reply raises, the
    exception is caught and the result is the defaulted one: verdict
    unknown, confidence 0.0, the single reason "Gemini error: " followed by
    the text of the exception, no risky phrases, no urls, and the message
    "Automatic analysis failed.". *)
Theorem model_failure_defaults (image_path msg : pystr) :
  model_call image_path = Failed msg ->
  call_gemini_sms_image image_path =
  Ok {| verdict := "unknown";
        confidence := 0%float;
        reasons := [lit "Gemini error: " ++ msg];
        risky_phrases := [];
        urls := [];
        user_message := "Automatic analysis failed." |}.
Proof.
  intros H. unfold call_gemini_sms_image. rewrite H.
  unfold normalize, norm_risky_phrases, py_list_set. simpl.
  rewrite set_list_nil. reflexivity.
Qed.

(** *** Floats *)

Lemma SFcompare_antisym (x y : spec_float) :
  SFcompare y x = option_map CompOpp (SFcompare x y).
Proof.
  destruct x as [[]|[]| |[] m1 e1], y as [[]|[]| |[] m2 e2];
    simpl; try reflexivity;
    rewrite (Z.compare_antisym e1 e2);
    destruct (e1 ?= e2)%Z; simpl; try reflexivity;
    change (PosDef.Pos.compare_cont Eq) with Pos.compare;
    rewrite (Pos.compare_antisym m1 m2);
    destruct (m1 ?= m2)%positive; reflexivity.
Qed.

Lemma float_ltb_leb (x y : float) :
  (x <? y)%float = true -> (x <=? y)%float = true.
Proof.
  rewrite ltb_spec, leb_spec. unfold SFltb, SFleb.
  destruct (SFcompare (Prim2SF x) (Prim2SF y)) as [[]|]; congruence.
Qed.

Lemma float_ltb_asym (x y : float) :
  (x <? y)%float = true -> (y <? x)%float = false.
Proof.
  rewrite !ltb_spec. unfold SFltb. rewrite (SFcompare_antisym (Prim2SF x)).
  destruct (SFcompare (Prim2SF x) (Prim2SF y)) as [[]|]; simpl; congruence.
Qed.

Lemma float_below_zero (x : float) :
  (x <? 0)%float = true -> (x <? 1)%float = true /\ (0 <? x)%float = false.
Proof.
  rewrite !ltb_spec.
  replace (Prim2SF 0) with (S754_zero false) by reflexivity.
  replace (Prim2SF 1) with (S754_finite false 4503599627370496 (-52))
    by reflexivity.
  destruct (Prim2SF x) as [[]|[]| |[] m e]; simpl;
    (discriminate || (intros _; split; reflexivity)).
Qed.

(** Line 104 keeps a float within the two bounds, whatever it is. *)
Lemma clamp_range (x : float) :
  (0 <=? py_max 0 (py_min 1 x))%float = true
  /\ (py_max 0 (py_min 1 x) <=? 1)%float = true.
Proof.
  unfold py_max, py_min.
  destruct (x <? 1)%float eqn:H1.
  - destruct (0 <? x)%float eqn:H0.
    + split; apply float_ltb_leb; assumption.
    + split; reflexivity.
  - split; reflexivity.
Qed.

Lemma digits2_iter_xO (p q : positive) :
  digits2_pos (Pos.iter xO p q) = (digits2_pos p + q)%positive.
Proof.
  induction q using Pos.peano_ind.
  - simpl. lia.
  - rewrite Pos.iter_succ. simpl. rewrite IHq. lia.
Qed.

Lemma digits2_lower_bound (p : positive) :
  (2 ^ (Zpos (digits2_pos p) - 1) <= Zpos p)%Z.
Proof.
  induction p as [p IH|p IH|]; simpl digits2_pos.
  - replace (Zpos (Pos.succ (digits2_pos p)) - 1)%Z
      with (Z.succ (Zpos (digits2_pos p) - 1)) by lia.
    rewrite Z.pow_succ_r by lia. lia.
  - replace (Zpos (Pos.succ (digits2_pos p)) - 1)%Z
      with (Z.succ (Zpos (digits2_pos p) - 1)) by lia.
    rewrite Z.pow_succ_r by lia. lia.
  - simpl. lia.
Qed.

Lemma digits2_small (p : positive) :
  (Zpos p < 2 ^ 53)%Z -> (Zpos (digits2_pos p) <= 53)%Z.
Proof.
  intros H.
  destruct (Z_le_gt_dec (Zpos (digits2_pos p)) 53) as [L|G]; [exact L|].
  exfalso. pose proof (digits2_lower_bound p) as B.
  assert (2 ^ 53 <= 2 ^ (Zpos (digits2_pos p) - 1))%Z
    by (apply Z.pow_le_mono_r; lia).
  lia.
Qed.

(** An integer below 2^53 in size is converted without rounding: its
    digits are shifted up to a mantissa of 53 bits. *)
Lemma binary_round_small (s : bool) (p : positive) :
  (Zpos p < 2 ^ 53)%Z ->
  exists m, binary_round prec emax s p 0
            = S754_finite s m (Zpos (digits2_pos p) - 53)
            /\ digits2_pos m = 53%positive.
Proof.
  intros Hp. pose proof (digits2_small p Hp) as Hd.
  set (d := digits2_pos p) in *.
  unfold binary_round.
  assert (Hf : fexp prec emax (Zpos d + 0) = (Zpos d - 53)%Z).
  { unfold fexp, emin, prec, emax. lia. }
  fold d. rewrite Hf.
  assert (Hal : exists m, shl_align p 0 (Zpos d - 53) = (m, (Zpos d - 53)%Z)
                          /\ digits2_pos m = 53%positive).
  { unfold shl_align. rewrite Z.sub_0_r.
    destruct (Zpos d - 53)%Z as [|q|q] eqn:E.
    - exists p. split; [reflexivity|]. fold d. lia.
    - lia.
    - exists (Pos.iter xO p q). split; [reflexivity|].
      rewrite digits2_iter_xO. fold d. lia. }
  destruct Hal as (m & -> & Hm).
  exists m. split; [|exact Hm].
  unfold binary_round_aux, shr_fexp. simpl Zdigits2. rewrite Hm.
  change IntDef.Z.sub with Z.sub. change IntDef.Z.add with Z.add.
  assert (Hn : (fexp prec emax (53 + (Zpos d - 53)) - (Zpos d - 53) = 0)%Z).
  { unfold fexp, emin, prec, emax. lia. }
  rewrite Hn.
  cbn [shr shr_record_of_loc shr_m loc_of_shr_record round_nearest_even
       Zdigits2].
  rewrite Hm. change IntDef.Z.sub with Z.sub. change IntDef.Z.add with Z.add.
  rewrite Hn. cbn [shr shr_record_of_loc shr_m].
  assert (Hle : (Zpos d - 53 <=? emax - prec)%Z = true).
  { apply Z.leb_le. unfold emax, prec. lia. }
  rewrite Hle. reflexivity.
Qed.

Lemma small_valid (s : bool) (m : positive) (e : Z) :
  digits2_pos m = 53%positive -> (-52 <= e <= 0)%Z ->
  valid_binary (S754_finite s m e) = true.
Proof.
  intros Hm He. unfold SpecFloat.valid_binary, bounded, canonical_mantissa.
  rewrite Hm. apply andb_true_iff. split.
  - apply Z.eqb_eq. unfold fexp, emin, prec, emax. lia.
  - apply Z.leb_le. unfold emax, prec. lia.
Qed.

(** [float(n)] for an integer of less than 54 bits, as a spec float. *)
Lemma int_to_float_small (z : Z) :
  (- 2 ^ 53 < z < 2 ^ 53)%Z ->
  exists x, int_to_float z = Ok x
    /\ match z with
       | Z0 => x = 0%float
       | Zpos p => exists m, Prim2SF x
                     = S754_finite false m (Zpos (digits2_pos p) - 53)
       | Zneg p => exists m, Prim2SF x
                     = S754_finite true m (Zpos (digits2_pos p) - 53)
       end.
Proof.
  intros Hz. unfold int_to_float. destruct z as [|p|p].
  - exists 0%float. split; reflexivity.
  - assert (Hp : (Zpos p < 2 ^ 53)%Z) by lia.
    destruct (binary_round_small false p Hp) as (m & E & Hm).
    pose proof (digits2_small p Hp) as Hd.
    cbn [binary_normalize]. rewrite E.
    eexists. split; [reflexivity|]. exists m.
    apply Prim2SF_SF2Prim. apply small_valid; [exact Hm | lia].
  - assert (Hp : (Zpos p < 2 ^ 53)%Z) by lia.
    destruct (binary_round_small true p Hp) as (m & E & Hm).
    pose proof (digits2_small p Hp) as Hd.
    cbn [binary_normalize]. rewrite E.
    eexists. split; [reflexivity|]. exists m.
    apply Prim2SF_SF2Prim. apply small_valid; [exact Hm | lia].
Qed.

(** Line 104 on an integer of less than 54 bits: 1.0 from 1 on, else 0.0. *)
Lemma clamp_small_int (z : Z) (x : float) :
  (- 2 ^ 53 < z < 2 ^ 53)%Z -> int_to_float z = Ok x ->
  py_max 0 (py_min 1 x) = if (1 <=? z)%Z then 1%float else 0%float.
Proof.
  intros Hz Hx. destruct (int_to_float_small z Hz) as (x' & Hx' & Hsf).
  rewrite Hx in Hx'. injection Hx' as <-.
  destruct z as [|p|p].
  - subst x. reflexivity.
  - destruct p as [p|p|]; [| |vm_compute in Hx; injection Hx as <-; reflexivity];
      destruct Hsf as (m & Hsf);
      (assert (H1 : (1 <? x)%float = true);
       [ rewrite ltb_spec, Hsf;
         replace (Prim2SF 1) with (S754_finite false 4503599627370496 (-52))
           by reflexivity;
         unfold SFltb, SFcompare;
         match goal with
         | |- context [(?a ?= ?b)%Z] =>
             assert (Hc : (a ?= b)%Z = Lt)
               by (apply Z.compare_lt_iff; simpl digits2_pos; lia);
             rewrite Hc
         end; reflexivity
       | unfold py_max, py_min; rewrite (float_ltb_asym _ _ H1); reflexivity ]).
  - destruct Hsf as (m & Hsf).
    assert (H0 : (x <? 0)%float = true).
    { rewrite ltb_spec, Hsf.
      replace (Prim2SF 0) with (S754_zero false) by reflexivity. reflexivity. }
    unfold py_max, py_min. destruct (float_below_zero _ H0) as [-> ->].
    reflexivity.
Qed.

(** C8 (amended): the confidence of the normaliser is the converted
    [confidence] entry, 0.0 when the conversion raises or the entry is
    missing, clamped by line 104.  It always lies between 0.0 and 1.0; a
    converted value above 1.0 becomes 1.0, one below 0.0 becomes 0.0, one
    strictly between the bounds is kept; a float entry is taken as it is;
    an integer entry of less than 54 bits gives 1.0 from 1 on and 0.0
    otherwise; an integer too large for a float, like any entry whose
    conversion raises, gives 0.0; and the value is the confidence of every
    result the normaliser returns. *)
Theorem confidence_clamped (data : PyVal) :
  let conv := v <- py_get data "confidence" (VFloat 0) ;; py_float v in
  let x := match conv with Ok f => f | Raise _ => 0%float end in
  let c := norm_confidence data in
  ((0 <=? c)%float = true /\ (c <=? 1)%float = true)
  /\ (forall e, conv = Raise e -> c = 0%float)
  /\ (forall d, data = VDict d -> dict_lookup "confidence" d = None ->
                c = 0%float)
  /\ ((1 <? x)%float = true -> c = 1%float)
  /\ ((x <? 0)%float = true -> c = 0%float)
  /\ ((0 <? x)%float = true -> (x <? 1)%float = true -> c = x)
  /\ (forall d f, data = VDict d ->
        dict_lookup "confidence" d = Some (VFloat f) -> x = f)
  /\ (forall d z, data = VDict d ->
        dict_lookup "confidence" d = Some (VInt z) ->
        (- 2 ^ 53 < z < 2 ^ 53)%Z ->
        c = if (1 <=? z)%Z then 1%float else 0%float)
  /\ (forall d z, data = VDict d ->
        dict_lookup "confidence" d = Some (VInt z) ->
        int_to_float z = Raise OverflowError -> c = 0%float)
  /\ (forall d v e, data = VDict d ->
        dict_lookup "confidence" d = Some v ->
        py_float v = Raise e -> c = 0%float)
  /\ (forall r, normalize data = Ok r -> confidence r = c).
Proof.
  intros conv x c.
  assert (Hc : c = py_max 0 (py_min 1 x)) by reflexivity.
  assert (Hraise : forall d v e, data = VDict d ->
            dict_lookup "confidence" d = Some v ->
            py_float v = Raise e -> c = 0%float).
  { intros d v e -> Hv He. rewrite Hc. unfold x, conv, py_get, dict_get.
    rewrite Hv. cbn [bind]. rewrite He. reflexivity. }
  split; [rewrite Hc; apply clamp_range|].
  split; [|split; [|split; [|split; [|split; [|split; [|split;
    [|split; [|split]]]]]]]].
  - intros e He. rewrite Hc. unfold x. rewrite He. reflexivity.
  - intros d -> Hnone. rewrite Hc. unfold x, conv, py_get, dict_get.
    rewrite Hnone. reflexivity.
  - intros H. rewrite Hc. unfold py_max, py_min.
    rewrite (float_ltb_asym _ _ H). reflexivity.
  - intros H. rewrite Hc. unfold py_max, py_min.
    destruct (float_below_zero _ H) as [-> ->]. reflexivity.
  - intros H0 H1. rewrite Hc. unfold py_max, py_min. rewrite H1, H0.
    reflexivity.
  - intros d f -> Hf. unfold x, conv, py_get, dict_get. rewrite Hf.
    reflexivity.
  - intros d z -> Hz Hr.
    destruct (int_to_float_small z Hr) as (y & Hy & _).
    rewrite Hc. unfold x, conv, py_get, dict_get. rewrite Hz.
    cbn [bind py_float]. rewrite Hy. apply (clamp_small_int z y Hr Hy).
  - intros d z Hd Hz Ho. apply (Hraise d (VInt z) OverflowError Hd Hz Ho).
  - exact Hraise.
  - intros r Hr. apply normalize_ok_inv in Hr. tauto.
Qed.

(** *** Reasons *)

Lemma firstn_length_le {A} (n : nat) (l : list A) : List.length (firstn n l) <= n.
Proof. rewrite length_firstn. apply Nat.le_min_l. Qed.

(** The reasons of a result are never more than six. *)
Lemma reasons_at_most_six (data : PyVal) (r : GeminiSMSResult) :
  normalize data = Ok r -> List.length (reasons r) <= 6.
Proof.
  intros H. apply normalize_ok_inv in H as (_ & _ & H & _).
  unfold norm_reasons in H.
  apply bind_ok_inv in H as (v & _ & H).
  apply bind_ok_inv in H as (items & _ & H).
  injection H as <-. exact (firstn_length_le 6 (map py_str items)).
Qed.

(** C3 (amended): on a mapping payload the reasons are the text of the
    first six elements drawn from the [reasons] entry, in their order; a
    missing entry gives the empty list; an entry that cannot be iterated
    makes the normaliser raise. *)
Theorem reasons_first_six (d : pydict) :
  let src := dict_get d "reasons" (VList []) in
  (forall items, py_iter src = Ok items ->
     norm_reasons (VDict d) = Ok (firstn 6 (map py_str items))
     /\ forall r, normalize (VDict d) = Ok r ->
          reasons r = firstn 6 (map py_str items)
          /\ List.length (reasons r) <= 6)
  /\ (dict_lookup "reasons" d = None -> norm_reasons (VDict d) = Ok [])
  /\ (forall e, py_iter src = Raise e -> normalize (VDict d) = Raise e).
Proof.
  intros src. split; [|split].
  - intros items Hit.
    assert (Hstep : norm_reasons (VDict d) = Ok (firstn 6 (map py_str items))).
    { unfold norm_reasons, py_get, bind. fold src. rewrite Hit. reflexivity. }
    split; [exact Hstep|].
    intros r Hr. pose proof (reasons_at_most_six _ _ Hr) as Hlen.
    apply normalize_ok_inv in Hr as (_ & _ & Hrs & _).
    rewrite Hstep in Hrs. injection Hrs as Hrs. rewrite <- Hrs in *.
    split; [reflexivity | exact Hlen].
  - intros Hnone. unfold norm_reasons, py_get, bind, dict_get.
    rewrite Hnone. reflexivity.
  - intros e He. unfold normalize. rewrite norm_verdict_dict.
    unfold norm_reasons, py_get, bind. fold src. rewrite He. reflexivity.
Qed.

(** *** Urls *)

Lemma url_entry_dict (u : pydict) :
  let s := py_lower (py_str (dict_get u "status" (VStr ""))) in
  url_entry (VDict u)
  = Ok {| url := py_strip (py_str (dict_get u "url" (VStr "")));
          status := if str_in s known_verdicts then s else lit "suspicious" |}.
Proof.
  intros s. unfold url_entry, py_get, bind. fold s.
  destruct (str_in s known_verdicts); reflexivity.
Qed.

Lemma for_each_cons {A B} (f : A -> result B) (x : A) (l : list A) :
  for_each f (x :: l) = (y <- f x ;; ys <- for_each f l ;; Ok (y :: ys)).
Proof. reflexivity. Qed.

Lemma for_each_url_entry (us : list pydict) :
  exists out, for_each url_entry (map VDict us) = Ok out
              /\ List.length out = List.length us.
Proof.
  induction us as [|u us (out & IH & Hlen)].
  - exists []. split; reflexivity.
  - eexists. rewrite map_cons, for_each_cons, url_entry_dict.
      cbn [bind]. rewrite IH. cbn [bind].
    split; [reflexivity | simpl; congruence].
Qed.

(** *** Totality *)

(** C1 (amended): the normaliser returns a result on every mapping payload
    whose [reasons] entry can be iterated, whose [risky_phrases] entry can
    be iterated and yields hashable values, whose [urls] entry yields
    mappings, and whose [user_message] entry is a string, each entry being
    allowed to be missing. *)
Theorem normalize_total_on_shaped (d : pydict) (rs ps : list PyVal)
  (us : list pydict) (s : pystr) :
  py_iter (dict_get d "reasons" (VList [])) = Ok rs ->
  py_iter (dict_get d "risky_phrases" (VList [])) = Ok ps ->
  forallb hashable ps = true ->
  py_iter (dict_get d "urls" (VList [])) = Ok (map VDict us) ->
  dict_get d "user_message" (VStr "") = VStr s ->
  exists r, normalize (VDict d) = Ok r.
Proof.
  intros Hrs Hps Hhash Hus Hum.
  destruct (for_each_url_entry us) as (out & Hout & _).
  unfold normalize. rewrite norm_verdict_dict.
  unfold norm_reasons, norm_risky_phrases, py_list_set, norm_urls,
    norm_user_message, py_get, bind.
  rewrite Hrs, Hps, Hhash, Hus, Hout, Hum. simpl. eauto.
Qed.

End NormaliserFacts.

(** ** The highlighter *)

Lemma insert_by_len_perm (x : pystr) (l : list pystr) :
  Permutation (insert_by_len x l) (x :: l).
Proof.
  induction l as [|y l IH]; simpl; [reflexivity|].
  destruct (py_len y <=? py_len x)%nat; [reflexivity|].
  rewrite IH. apply perm_swap.
Qed.

Lemma sorted_by_len_desc_perm (l : list pystr) :
  Permutation (sorted_by_len_desc l) l.
Proof.
  induction l as [|x l IH]; simpl; [reflexivity|].
  rewrite insert_by_len_perm. constructor. exact IH.
Qed.

Lemma insert_by_len_sorted (x : pystr) (l : list pystr) :
  StronglySorted not_longer l -> StronglySorted not_longer (insert_by_len x l).
Proof.
  induction 1 as [|y l Hs IH Hall]; simpl.
  - repeat constructor.
  - destruct (py_len y <=? py_len x)%nat eqn:E.
    + apply Nat.leb_le in E. constructor.
      * constructor; assumption.
      * constructor; [exact E|].
        eapply Forall_impl; [|exact Hall].
        unfold not_longer. intros z Hz. lia.
    + apply Nat.leb_gt in E. constructor; [exact IH|].
      eapply Permutation_Forall.
      * symmetry. apply insert_by_len_perm.
      * constructor; [unfold not_longer; lia | exact Hall].
Qed.

Lemma sorted_by_len_desc_sorted (l : list pystr) :
  StronglySorted not_longer (sorted_by_len_desc l).
Proof.
  induction l as [|x l IH]; simpl; [constructor|].
  apply insert_by_len_sorted. exact IH.
Qed.

Lemma sorted_after (q : pystr) (a b : list pystr) :
  StronglySorted not_longer (a ++ q :: b) -> Forall (not_longer q) b.
Proof.
  induction a as [|x a IH]; simpl; intros H; inversion H; subst; auto.
Qed.

(** Every match is replaced by the same text: the template of line 52
    never mentions the group. *)
Lemma marker_is_constant (m : pystr) :
  expand_template mark_template m = lit "<mark>\1</mark>".
Proof. reflexivity. Qed.

(** Sorting keeps the phrases of one length in the order they had. *)
Lemma insert_by_len_stable (x : pystr) (l : list pystr) (n : nat) :
  filter (fun p => (py_len p =? n)%nat) (insert_by_len x l)
  = filter (fun p => (py_len p =? n)%nat) (x :: l).
Proof.
  induction l as [|y l IH]; [reflexivity|].
  cbn [insert_by_len].
  destruct (py_len y <=? py_len x)%nat eqn:E; [reflexivity|].
  apply Nat.leb_gt in E.
  cbn [filter] in *. rewrite IH.
  destruct (py_len x =? n)%nat eqn:Ex; destruct (py_len y =? n)%nat eqn:Ey;
    try reflexivity.
  apply Nat.eqb_eq in Ex, Ey. lia.
Qed.

Lemma sorted_by_len_desc_stable (l : list pystr) (n : nat) :
  filter (fun p => (py_len p =? n)%nat) (sorted_by_len_desc l)
  = filter (fun p => (py_len p =? n)%nat) l.
Proof.
  induction l as [|x l IH]; [reflexivity|].
  cbn [sorted_by_len_desc fold_right].
  change (fold_right insert_by_len [] l) with (sorted_by_len_desc l).
  rewrite insert_by_len_stable. cbn [filter]. rewrite IH. reflexivity.
Qed.

Section HighlighterFacts.
Context {rt : Runtime}.

Lemma phrase_order_perm (phrases : list pystr) :
  Permutation (phrase_order phrases) (set_iter phrases).
Proof. apply sorted_by_len_desc_perm. Qed.

Lemma phrase_order_nodup (phrases : list pystr) : NoDup (phrase_order phrases).
Proof.
  eapply Permutation_NoDup.
  - symmetry. apply phrase_order_perm.
  - apply set_iter_nodup.
Qed.

Lemma phrase_order_elems (phrases : list pystr) (p : pystr) :
  In p (phrase_order phrases) <-> In p phrases.
Proof.
  split; intros H.
  - apply set_iter_elems. eapply Permutation_in; [|exact H].
    apply phrase_order_perm.
  - apply set_iter_elems in H. eapply Permutation_in; [|exact H].
    symmetry. apply phrase_order_perm.
Qed.

(** Two distinct phrases are visited in one of the two orders. *)
Lemma set_iter_pair (a b : pystr) :
  a <> b -> set_iter [a; b] = [a; b] \/ set_iter [a; b] = [b; a].
Proof.
  intros Hab. apply Permutation_length_2_inv.
  apply NoDup_Permutation.
  - repeat constructor; simpl; intuition.
  - apply set_iter_nodup.
  - intros x. symmetry. apply set_iter_elems.
Qed.

(** C7 (amended): the loop of line 50 visits each distinct phrase once, in
    descending order of length, so a longer phrase is wrapped before any
    shorter one; phrases of one length are visited in the order the set
    iterates them; every pass rewrites the text left by the passes before
    it. *)
Theorem phrases_longest_first (text : pystr) (phrases : list pystr) :
  let order := phrase_order phrases in
  NoDup order
  /\ (forall p, In p order <-> In p phrases)
  /\ StronglySorted (fun p q => py_len q <= py_len p) order
  /\ (forall p q, In p phrases -> In q phrases -> py_len q < py_len p ->
        exists l1 l2 l3, order = l1 ++ p :: l2 ++ q :: l3)
  /\ highlight_phrases text phrases
     = fold_left mark_phrase order (html_escape text)
  /\ (forall n, filter (fun p => (py_len p =? n)%nat) order
                = filter (fun p => (py_len p =? n)%nat) (set_iter phrases)).
Proof.
  intros order.
  assert (Hs : StronglySorted not_longer order)
    by apply sorted_by_len_desc_sorted.
  split; [apply phrase_order_nodup|].
  split; [apply phrase_order_elems|].
  split; [exact Hs|]. split; [|split].
  - intros p q Hp Hq Hlt.
    apply phrase_order_elems in Hp, Hq. fold order in Hp, Hq.
    destruct (in_split _ _ Hq) as (a & b & E).
    rewrite E in Hp, Hs. apply sorted_after in Hs.
    apply in_app_or in Hp as [Hp | [Hp | Hp]].
    + destruct (in_split _ _ Hp) as (l1 & l2 & ->).
      exists l1, l2, b. rewrite E, <- app_assoc. reflexivity.
    + subst. lia.
    + rewrite Forall_forall in Hs. specialize (Hs _ Hp).
      unfold not_longer in Hs. lia.
  - unfold highlight_phrases. fold order. destruct text; reflexivity.
  - intros n. apply sorted_by_len_desc_stable.
Qed.

(** C2 (failing input): on "Your OTP is urgent" with the phrases OTP and
    urgent both words are replaced by a marker around a backslash and the
    digit 1; the matched words, and with them their casing, are gone. *)
Theorem highlight_loses_matched_text :
  highlight_phrases "Your OTP is urgent" [lit "OTP"; lit "urgent"]
  = lit "Your <mark>\1</mark> is <mark>\1</mark>".
Proof.
  unfold highlight_phrases, phrase_order.
  destruct (set_iter_pair (lit "OTP") (lit "urgent")) as [-> | ->];
    [discriminate | reflexivity | reflexivity].
Qed.

End HighlighterFacts.

(** ** The route *)

Section RouteFacts.
Context {rt : Runtime}.

(** C10: a POST whose image field is absent, or present with an empty
    filename, writes no file and sends nothing to the model, and renders
    the page with no image path, an empty highlighted text and no
    analysis, as a GET does. *)
Theorem post_without_file_is_blank (req : Request) (w : World) :
  method req = POST ->
  image_file req = None
  \/ (exists f, image_file req = Some f /\ filename f = []) ->
  index req w = (Ok {| image_path := None;
                       sms_text := "";
                       highlighted_text := "";
                       analysis := None |}, w)
  /\ index req w = index {| method := GET; image_file := image_file req |} w.
Proof.
  intros Hm Hf. unfold index. rewrite Hm. simpl.
  destruct Hf as [-> | (f & -> & ->)]; split; reflexivity.
Qed.

End RouteFacts.

(** * Concrete runs *)

(** C1 (counterexample): a reply that is a JSON list instead of a mapping
    makes the normaliser raise at line 96. *)
Lemma normalize_raises_on_list :
  @normalize rt_offline (VList []) = Raise AttributeError.
Proof. reflexivity. Qed.

Lemma normalize_total_witness :
  exists r, @normalize rt_offline (VDict reply_phishing) = Ok r.
Proof.
  apply (@normalize_total_on_shaped rt_offline reply_phishing
           [VStr "urgent call to action"; VInt 7]
           [VStr "OTP"; VStr "urgent"]
           [[(lit "url", VStr " http://x "); (lit "status", VStr "weird")]]
           (lit "  Do not reply.  ")); reflexivity.
Defined.

(** C3 (counterexample): with [null] for [reasons] the normaliser raises
    [TypeError] at line 106; no empty list is substituted. *)
Lemma reasons_null_raises :
  @norm_reasons rt_offline (VDict [(lit "reasons", VNone)]) = Raise TypeError
  /\ @normalize rt_offline (VDict [(lit "reasons", VNone)]) = Raise TypeError.
Proof. split; reflexivity. Qed.

Lemma reasons_first_six_witness :
  @py_iter (dict_get reply_phishing "reasons" (VList []))
  = Ok [VStr "urgent call to action"; VInt 7]
  /\ @norm_reasons rt_offline (VDict reply_phishing)
     = Ok [lit "urgent call to action"; lit "7"].
Proof.
  split; [reflexivity|].
  apply (proj1 (@reasons_first_six rt_offline reply_phishing)
           [VStr "urgent call to action"; VInt 7]).
  reflexivity.
Defined.

Lemma model_failure_witness :
  @model_call rt_offline "static/uploads/sms.png" = Failed "timeout"
  /\ @call_gemini_sms_image rt_offline "static/uploads/sms.png"
     = Ok {| verdict := "unknown";
             confidence := 0%float;
             reasons := [lit "Gemini error: timeout"];
             risky_phrases := [];
             urls := [];
             user_message := "Automatic analysis failed." |}.
Proof.
  split; [reflexivity|].
  apply (@model_failure_defaults rt_offline (lit "static/uploads/sms.png")
           (lit "timeout")).
  reflexivity.
Defined.


(** C7 (counterexample): "1" is a whole word of "now 1"; after the longer
    phrase is wrapped, the pass for "1" matches the digit inside the
    marker and wraps it again. *)
Lemma nested_marker_example :
  @highlight_phrases rt_offline "now 1" [lit "now 1"; lit "1"]
  = lit "<mark>\<mark>\1</mark></mark>"
  /\ nested_marks (@highlight_phrases rt_offline "now 1" [lit "now 1"; lit "1"])
     = true.
Proof. split; reflexivity. Qed.

(** The parts of the highlighter that work: the text is escaped and a
    phrase inside a longer word is left alone. *)
Example partial_word_not_wrapped :
  @highlight_phrases rt_offline "act <urgently>" [lit "urgent"]
  = lit "act &lt;urgently&gt;".
Proof. reflexivity. Qed.

Lemma post_without_file_witness :
  method post_empty_file = POST
  /\ (exists f, image_file post_empty_file = Some f /\ filename f = [])
  /\ @index rt_offline post_empty_file no_uploads = (Ok blank_page, no_uploads).
Proof.
  assert (Hf : exists f, image_file post_empty_file = Some f /\ filename f = [])
    by (eexists; split; reflexivity).
  split; [reflexivity|]. split; [exact Hf|].
  exact (proj1 (@post_without_file_is_blank rt_offline post_empty_file
                  no_uploads eq_refl (or_intror Hf))).
Defined.

(** * Further properties of the normaliser *)

Lemma pystr_eqb_sym (s t : pystr) : pystr_eqb s t = pystr_eqb t s.
Proof.
  destruct (pystr_eqb s t) eqn:E.
  - apply pystr_eqb_eq in E. subst. symmetry. apply pystr_eqb_refl.
  - destruct (pystr_eqb t s) eqn:E'; [|reflexivity].
    apply pystr_eqb_eq in E'. subst. rewrite pystr_eqb_refl in E.
    discriminate.
Qed.

Lemma dict_get_skip (d1 d2 : pydict) (k key : pystr) (v default : PyVal) :
  pystr_eqb key k = false ->
  dict_get (d1 ++ (k, v) :: d2) key default = dict_get (d1 ++ d2) key default.
Proof.
  intros Hk. unfold dict_get.
  induction d1 as [|[k1 v1] d1 IH]; simpl.
  - rewrite Hk. reflexivity.
  - destruct (pystr_eqb key k1); [reflexivity | exact IH].
Qed.

Lemma for_each_ok_inv {A B} (f : A -> result B) (l : list A) (out : list B) :
  for_each f l = Ok out -> Forall2 (fun x y => f x = Ok y) l out.
Proof.
  revert out. induction l as [|x l IH]; simpl; intros out H.
  - injection H as <-. constructor.
  - apply bind_ok_inv in H as (y & Hy & H).
    apply bind_ok_inv in H as (ys & Hys & H).
    injection H as <-. constructor; [exact Hy | apply IH; exact Hys].
Qed.

Section NormaliserEdges.
Context {rt : Runtime}.

(** X1: line 107 on a mapping payload.  A missing [risky_phrases] entry
    gives no phrases; an entry yielding hashable values gives phrases that
    all come from the entry, and they are the phrases of every result; one
    list or mapping among the values makes the normaliser raise
    [TypeError]. *)
Theorem risky_phrases_from_entry (d : pydict) :
  let src := dict_get d "risky_phrases" (VList []) in
  (dict_lookup "risky_phrases" d = None -> norm_risky_phrases (VDict d) = Ok [])
  /\ (forall items, py_iter src = Ok items ->
        forallb hashable items = true ->
        exists ps, norm_risky_phrases (VDict d) = Ok ps
                   /\ incl ps items
                   /\ forall r, normalize (VDict d) = Ok r ->
                                risky_phrases r = ps)
  /\ (forall items, py_iter src = Ok items ->
        forallb hashable items = false ->
        norm_risky_phrases (VDict d) = Raise TypeError
        /\ forall r, normalize (VDict d) <> Ok r).
Proof.
  intros src. split; [|split].
  - intros Hn. unfold norm_risky_phrases, py_get, py_list_set, bind, dict_get.
    rewrite Hn. simpl. rewrite set_list_nil. reflexivity.
  - intros items Hit Hh.
    assert (Hstep : norm_risky_phrases (VDict d) = Ok (set_list items)).
    { unfold norm_risky_phrases, py_get, py_list_set, bind. fold src.
      rewrite Hit, Hh. reflexivity. }
    exists (set_list items). split; [exact Hstep|].
    split; [apply set_list_incl|].
    intros r Hr. apply normalize_ok_inv in Hr as (_ & _ & _ & Hp & _).
    rewrite Hstep in Hp. injection Hp as Hp. symmetry. exact Hp.
  - intros items Hit Hh.
    assert (Hstep : norm_risky_phrases (VDict d) = Raise TypeError).
    { unfold norm_risky_phrases, py_get, py_list_set, bind. fold src.
      rewrite Hit, Hh. reflexivity. }
    split; [exact Hstep|].
    intros r Hr. apply normalize_ok_inv in Hr as (_ & _ & _ & Hp & _).
    rewrite Hstep in Hp. discriminate Hp.
Qed.

(** X2: an entry of the payload under a key the normaliser does not read
    changes nothing, wherever it stands in the mapping. *)
Theorem unknown_key_ignored (d1 d2 : pydict) (k : pystr) (v : PyVal) :
  str_in k field_names = false ->
  normalize (VDict (d1 ++ (k, v) :: d2)) = normalize (VDict (d1 ++ d2)).
Proof.
  intros Hk. unfold str_in, field_names in Hk. simpl in Hk.
  repeat (apply orb_false_iff in Hk as [? Hk]).
  assert (G : forall key default, pystr_eqb k key = false ->
            dict_get (d1 ++ (k, v) :: d2) key default
            = dict_get (d1 ++ d2) key default).
  { intros key default Hne. apply dict_get_skip.
    rewrite pystr_eqb_sym. exact Hne. }
  unfold normalize, norm_verdict, norm_confidence, norm_reasons,
    norm_risky_phrases, norm_urls, norm_user_message, py_get.
  rewrite !G by assumption. reflexivity.
Qed.

(** X3: when the [reasons] entry is one string instead of a list, the
    reasons are its first six characters, one reason each. *)
Theorem reasons_of_string (d : pydict) (s : pystr) :
  dict_lookup "reasons" d = Some (VStr s) ->
  norm_reasons (VDict d) = Ok (map (fun c => [c]) (firstn 6 s)).
Proof.
  intros H. unfold norm_reasons, py_get, bind, dict_get. rewrite H.
  cbn [py_iter]. rewrite map_map. cbn [py_str].
  rewrite firstn_map. reflexivity.
Qed.

Lemma url_entry_not_dict (v : PyVal) :
  is_dict v = false -> url_entry v = Raise AttributeError.
Proof. destruct v; simpl; intros H; try reflexivity; discriminate. Qed.

Lemma url_entry_ok_dict (v : PyVal) (e : UrlEntry) :
  url_entry v = Ok e ->
  exists u, v = VDict u
    /\ url e = py_strip (py_str (dict_get u "url" (VStr "")))
    /\ In (status e) known_verdicts.
Proof.
  destruct v as [| | | | |l|u]; try discriminate.
  intros H. pose proof (url_entry_dict u) as G. cbv zeta in G.
  rewrite G in H. clear G.
  remember (py_lower (py_str (dict_get u "status" (VStr "")))) as s.
  assert (He : e = {| url := py_strip (py_str (dict_get u "url" (VStr "")));
                      status := if str_in s known_verdicts then s
                                else lit "suspicious" |}) by congruence.
  clear H. subst e. exists u. split; [reflexivity|]. split; [reflexivity|].
  cbn [status].
  destruct (str_in s known_verdicts) eqn:E.
  - apply str_in_In. exact E.
  - right; left; reflexivity.
Qed.

Lemma for_each_url_entry_raises (items : list PyVal) :
  forallb is_dict items = false ->
  for_each url_entry items = Raise AttributeError.
Proof.
  induction items as [|x l IH]; [discriminate|].
  cbn [forallb]. intros H. rewrite for_each_cons.
  destruct (is_dict x) eqn:Ex.
  - destruct x; try discriminate Ex.
    rewrite url_entry_dict. cbn [bind]. rewrite (IH H). reflexivity.
  - rewrite (url_entry_not_dict _ Ex). reflexivity.
Qed.

(** X4: one element of the [urls] entry that is not a mapping (a bare
    string, say) makes the url loop raise [AttributeError], and the
    normaliser returns no result. *)
Theorem urls_entry_not_mapping (d : pydict) (items : list PyVal) :
  py_iter (dict_get d "urls" (VList [])) = Ok items ->
  forallb is_dict items = false ->
  norm_urls (VDict d) = Raise AttributeError
  /\ forall r, normalize (VDict d) <> Ok r.
Proof.
  intros Hit Hd.
  assert (Hstep : norm_urls (VDict d) = Raise AttributeError).
  { unfold norm_urls, py_get, bind. rewrite Hit.
    apply for_each_url_entry_raises. exact Hd. }
  split; [exact Hstep|].
  intros r Hr. apply normalize_ok_inv in Hr as (_ & _ & _ & _ & Hu & _).
  rewrite Hstep in Hu. discriminate Hu.
Qed.

(** The statuses of a result are known verdicts, whatever the payload. *)
Lemma urls_status_known (data : PyVal) (r : GeminiSMSResult) :
  normalize data = Ok r ->
  Forall (fun e => In (status e) known_verdicts) (urls r).
Proof.
  intros H. apply normalize_ok_inv in H as (_ & _ & _ & _ & H & _).
  unfold norm_urls in H.
  apply bind_ok_inv in H as (v & _ & H).
  apply bind_ok_inv in H as (items & _ & H).
  apply for_each_ok_inv in H.
  induction H as [|x e l out Hx _ IH]; constructor; [|exact IH].
  apply url_entry_ok_dict in Hx as (u & _ & _ & Hs). exact Hs.
Qed.

Lemma SFcompare_refl (x : spec_float) :
  x <> S754_nan -> SFcompare x x = Some Eq.
Proof.
  destruct x as [s|[]| |[] m e]; simpl; try reflexivity; try congruence;
    intros _; rewrite Z.compare_refl;
    change (PosDef.Pos.compare_cont Eq m m) with (Pos.compare m m);
    rewrite Pos.compare_refl; reflexivity.
Qed.

Lemma nan_not_below (x y : float) :
  PrimFloat.is_nan x = true -> (x <? y)%float = false.
Proof.
  unfold PrimFloat.is_nan. rewrite FloatAxioms.eqb_spec, ltb_spec.
  unfold SFeqb, SFltb. intros H.
  destruct (Prim2SF x) as [s|s| |s m e] eqn:E; try reflexivity;
    rewrite SFcompare_refl in H by discriminate; discriminate H.
Qed.

(** X5: a [confidence] entry that converts to NaN (the JSON constant NaN)
    comes out as confidence 1.0: [min(1.0, nan)] keeps its first
    argument. *)
Theorem confidence_nan_is_one (data : PyVal) (x : float) :
  (v <- py_get data "confidence" (VFloat 0) ;; py_float v) = Ok x ->
  PrimFloat.is_nan x = true ->
  norm_confidence data = 1%float.
Proof.
  intros Hx Hnan. unfold norm_confidence. rewrite Hx.
  unfold py_max, py_min. rewrite (nan_not_below x 1 Hnan). reflexivity.
Qed.

End NormaliserEdges.

(** * Further properties of the text fields, the highlighter and the route *)

Lemma html_escape_char_other (x : codepoint) :
  x <> 38%N -> x <> 60%N -> x <> 62%N -> x <> 39%N -> x <> 34%N ->
  html_escape_char x = [x].
Proof.
  intros H1 H2 H3 H4 H5. destruct x as [|p]; [reflexivity|].
  do 6 (try (destruct p as [p|p|]; try reflexivity));
    exfalso; first [ apply H1; reflexivity | apply H2; reflexivity
                   | apply H3; reflexivity | apply H4; reflexivity
                   | apply H5; reflexivity ].
Qed.

(** No character of escaped text is an angle bracket or a quote. *)
Lemma html_escape_safe (s : pystr) (c : codepoint) :
  In c (html_escape s) -> c <> 60%N /\ c <> 62%N /\ c <> 34%N /\ c <> 39%N.
Proof.
  unfold html_escape. rewrite in_flat_map. intros (x & _ & Hc).
  destruct (N.eq_dec x 38) as [->|H1];
    [simpl in Hc; repeat (destruct Hc as [<-|Hc]; [repeat split; discriminate|]);
     contradiction|].
  destruct (N.eq_dec x 60) as [->|H2];
    [simpl in Hc; repeat (destruct Hc as [<-|Hc]; [repeat split; discriminate|]);
     contradiction|].
  destruct (N.eq_dec x 62) as [->|H3];
    [simpl in Hc; repeat (destruct Hc as [<-|Hc]; [repeat split; discriminate|]);
     contradiction|].
  destruct (N.eq_dec x 39) as [->|H4];
    [simpl in Hc; repeat (destruct Hc as [<-|Hc]; [repeat split; discriminate|]);
     contradiction|].
  destruct (N.eq_dec x 34) as [->|H5];
    [simpl in Hc; repeat (destruct Hc as [<-|Hc]; [repeat split; discriminate|]);
     contradiction|].
  rewrite (html_escape_char_other x H1 H2 H3 H4 H5) in Hc.
  destruct Hc as [<-|[]]. repeat split; assumption.
Qed.

Lemma path_join_upload (name : pystr) :
  path_join UPLOAD_FOLDER name
  = if starts_with "/" name then name else lit "static/uploads/" ++ name.
Proof.
  destruct name as [|c t]; [reflexivity|].
  destruct c as [|p]; [reflexivity|].
  do 6 (try (destruct p as [p|p|]; try reflexivity)).
Qed.

Section TextFacts.
Context {rt : Runtime}.

Lemma lstrip_head (s : pystr) :
  match lstrip s with
  | c :: _ => py_isspace c = false
  | [] => True
  end.
Proof.
  induction s as [|a s IH]; simpl; [exact I|].
  destruct (py_isspace a) eqn:E; [exact IH | exact E].
Qed.

Lemma lstrip_snoc (x : pystr) (c : codepoint) :
  py_isspace c = false -> exists y, lstrip (x ++ [c]) = y ++ [c].
Proof.
  intros Hc. induction x as [|a x IH]; simpl.
  - rewrite Hc. exists []. reflexivity.
  - destruct (py_isspace a); [exact IH | exists (a :: x); reflexivity].
Qed.

Lemma py_strip_no_outer_space (s : pystr) : no_outer_space (py_strip s).
Proof.
  unfold no_outer_space, py_strip. rewrite rev_involutive. split.
  - pose proof (lstrip_head s) as H.
    destruct (lstrip s) as [|c t]; [exact I|].
    simpl rev. destruct (lstrip_snoc (rev t) c H) as (y & ->).
    rewrite rev_app_distr. simpl. exact H.
  - apply lstrip_head.
Qed.

Lemma set_iter_nil : set_iter [] = [].
Proof.
  destruct (set_iter []) as [|x l] eqn:E; [reflexivity|].
  exfalso. apply (set_iter_elems [] x). rewrite E. left; reflexivity.
Qed.

Lemma sub_scan_absent (p tmpl s : pystr) :
  occurs p s = false -> forall prev, sub_scan p tmpl prev 0 s = s.
Proof.
  unfold occurs. induction s as [|c s IH]; intros H prev.
  - simpl in H. apply orb_false_iff in H as [H _].
    simpl. unfold match_at.
    destruct (at_boundary prev []); [|reflexivity].
    destruct (match_literal p []); [discriminate H | reflexivity].
  - cbn [tails existsb] in H. apply orb_false_iff in H as [H Hs].
    cbn [sub_scan]. unfold match_at.
    destruct (at_boundary prev (c :: s)).
    + destruct (match_literal p (c :: s)); [discriminate H|].
      rewrite (IH Hs). reflexivity.
    + rewrite (IH Hs). reflexivity.
Qed.

Lemma fold_mark_absent (l : list pystr) (acc : pystr) :
  (forall p, In p l -> occurs p acc = false) ->
  fold_left mark_phrase l acc = acc.
Proof.
  induction l as [|p l IH]; intros H; [reflexivity|].
  simpl. unfold mark_phrase at 2.
  rewrite (sub_scan_absent p mark_template acc (H p (or_introl eq_refl))).
  apply IH. intros q Hq. apply H. right. exact Hq.
Qed.

Lemma text_or_empty (text : pystr) :
  match text with
  | [] => lit ""
  | _ :: _ => text
  end = text.
Proof. destruct text; reflexivity. Qed.

(** X6: in every result the message is not empty and has no whitespace at
    either end, and neither has any url. *)
Theorem text_fields_trimmed (data : PyVal) (r : GeminiSMSResult) :
  normalize data = Ok r ->
  user_message r <> []
  /\ no_outer_space (user_message r)
  /\ Forall (fun e => no_outer_space (url e)) (urls r).
Proof.
  intros H. apply normalize_ok_inv in H as (_ & _ & _ & _ & Hu & Hm).
  assert (Hmsg : user_message r <> [] /\ no_outer_space (user_message r)).
  { unfold norm_user_message in Hm.
    apply bind_ok_inv in Hm as (v & _ & Hm).
    apply bind_ok_inv in Hm as (s & Hs & Hm).
    destruct v; try discriminate Hs. injection Hs as <-.
    pose proof (py_strip_no_outer_space s0) as Hns.
    destruct (py_strip s0) as [|c t].
    - injection Hm as <-. split; [discriminate | split; reflexivity].
    - injection Hm as <-. split; [discriminate | exact Hns]. }
  destruct Hmsg as [Hne Hns]. split; [exact Hne|]. split; [exact Hns|].
  unfold norm_urls in Hu.
  apply bind_ok_inv in Hu as (v & _ & Hu).
  apply bind_ok_inv in Hu as (items & _ & Hu).
  apply for_each_ok_inv in Hu.
  induction Hu as [|x e l out Hx _ IH]; constructor; [|exact IH].
  apply url_entry_ok_dict in Hx as (u & _ & -> & _).
  apply py_strip_no_outer_space.
Qed.

(** X7: the badge of a result agrees with its verdict: each of the three
    known verdicts has its own badge and [unknown] has the fallback one. *)
Theorem badge_follows_verdict (data : PyVal) (r : GeminiSMSResult) :
  normalize data = Ok r ->
  (verdict r = lit "safe"
   /\ badge_of (verdict r) = 9989%N :: lit " Safe")
  \/ (verdict r = lit "suspicious"
      /\ badge_of (verdict r) = 9888%N :: lit " Suspicious")
  \/ (verdict r = lit "phishing"
      /\ badge_of (verdict r) = 10060%N :: lit " Phishing")
  \/ (verdict r = lit "unknown"
      /\ badge_of (verdict r) = 10068%N :: lit " Unknown").
Proof.
  intros H. apply verdict_always_known in H.
  destruct H as [<-|[<-|[<-|[<-|[]]]]]; auto 6.
Qed.

(** X8: no phrase that occurs nowhere in the escaped text changes it:
    when none of the phrases occurs, the result is the escaped text. *)
Theorem absent_phrases_ignored (text : pystr) (phrases : list pystr) :
  (forall p, In p phrases -> occurs p (html_escape text) = false) ->
  highlight_phrases text phrases = html_escape text.
Proof.
  intros H. unfold highlight_phrases. rewrite text_or_empty.
  apply fold_mark_absent. intros p Hp. apply H.
  apply (phrase_order_elems phrases p). exact Hp.
Qed.

(** X9: with no phrases the result is the escaped text, which holds no
    angle bracket and no quote. *)
Theorem no_phrases_escaped_only (text : pystr) :
  highlight_phrases text [] = html_escape text
  /\ forall c, In c (highlight_phrases text []) ->
               c <> 60%N /\ c <> 62%N /\ c <> 34%N /\ c <> 39%N.
Proof.
  assert (E : highlight_phrases text [] = html_escape text).
  { unfold highlight_phrases, phrase_order. rewrite set_iter_nil, text_or_empty.
    reflexivity. }
  split; [exact E|]. rewrite E. apply html_escape_safe.
Qed.

Lemma for_each_strings (ps : list pystr) :
  for_each (fun v => match v with
                     | VStr s => Ok s
                     | _ => Raise TypeError
                     end) (map VStr ps) = Ok ps.
Proof.
  induction ps as [|s ps IH]; [reflexivity|].
  rewrite map_cons, for_each_cons. cbn [bind]. rewrite IH. reflexivity.
Qed.

Lemma all_strings (phrases : list PyVal) :
  forallb is_str phrases = true -> exists ps, phrases = map VStr ps.
Proof.
  induction phrases as [|v l IH]; intros H.
  - exists []. reflexivity.
  - cbn [forallb] in H. apply andb_true_iff in H as [Hv Hl].
    destruct v; try discriminate Hv.
    destruct (IH Hl) as (ps & ->). exists (s :: ps). reflexivity.
Qed.

Lemma highlight_risky_not_strings (text : pystr) (phrases : list PyVal) :
  forallb is_str phrases = false ->
  highlight_risky text phrases = Raise TypeError.
Proof.
  unfold highlight_risky.
  induction phrases as [|v l IH]; intros H; [discriminate H|].
  cbn [forallb] in H. rewrite for_each_cons.
  destruct v; try reflexivity. cbn [bind]. simpl in H.
  specialize (IH H).
  destruct (for_each _ l) as [qs|e]; cbn [bind] in *;
    [discriminate IH | exact IH].
Qed.

Lemma highlight_no_phrases (text : pystr) :
  highlight_phrases text [] = html_escape text.
Proof.
  unfold highlight_phrases, phrase_order.
  rewrite set_iter_nil, text_or_empty. reflexivity.
Qed.

(** X10: highlighting the phrases of a result works when all of them are
    strings and raises [TypeError] as soon as one is not. *)
Theorem highlight_risky_needs_strings (text : pystr) (phrases : list PyVal) :
  (forallb is_str phrases = true ->
   exists ps, phrases = map VStr ps
              /\ highlight_risky text phrases = Ok (highlight_phrases text ps))
  /\ (forallb is_str phrases = false ->
      highlight_risky text phrases = Raise TypeError).
Proof.
  split.
  - intros H. destruct (all_strings phrases H) as (ps & ->).
    exists ps. split; [reflexivity|].
    unfold highlight_risky. rewrite for_each_strings. reflexivity.
  - apply highlight_risky_not_strings.
Qed.

End TextFacts.

(** * The url entries *)

Lemma all_dicts (items : list PyVal) :
  forallb is_dict items = true -> exists us, items = map VDict us.
Proof.
  induction items as [|v l IH]; intros H.
  - exists []. reflexivity.
  - cbn [forallb] in H. apply andb_true_iff in H as [Hv Hl].
    destruct v; try discriminate Hv.
    destruct (IH Hl) as (us & ->). exists (d :: us). reflexivity.
Qed.

Lemma forallb_rev {A} (f : A -> bool) (l : list A) :
  forallb f l = true -> forallb f (rev l) = true.
Proof.
  rewrite !forallb_forall. intros H x Hx. apply H. apply in_rev. exact Hx.
Qed.

Section UrlFacts.
Context {rt : Runtime}.

Lemma lstrip_split (s : pystr) :
  exists lead, s = lead ++ lstrip s /\ forallb py_isspace lead = true.
Proof.
  induction s as [|a s (lead & E & H)]; simpl.
  - exists []. split; reflexivity.
  - destruct (py_isspace a) eqn:Ea.
    + exists (a :: lead). simpl. rewrite Ea, H. split; [congruence | reflexivity].
    + exists []. split; reflexivity.
Qed.

(** [strip] removes a run of whitespace at each end and nothing else. *)
Lemma py_strip_split (s : pystr) :
  exists lead trail,
    s = lead ++ py_strip s ++ trail
    /\ forallb py_isspace lead = true
    /\ forallb py_isspace trail = true.
Proof.
  destruct (lstrip_split s) as (lead & E1 & H1).
  destruct (lstrip_split (rev (lstrip s))) as (l2 & E2 & H2).
  exists lead, (rev l2). split; [|split; [exact H1 | apply forallb_rev; exact H2]].
  unfold py_strip. rewrite <- rev_app_distr, <- E2, rev_involutive. exact E1.
Qed.

Lemma py_lower_ascii (t : pystr) :
  forallb is_ascii t = true -> py_lower t = map ascii_lower t.
Proof. intros H. unfold py_lower. rewrite H. reflexivity. Qed.

Lemma url_entry_entry_of (u : pydict) :
  exists e, url_entry (VDict u) = Ok e /\ entry_of u e.
Proof.
  pose proof (url_entry_dict u) as G. cbv zeta in G.
  eexists. split; [exact G|].
  unfold entry_of. cbv zeta. cbn [url status].
  set (s := py_lower (py_str (dict_get u "status" (VStr "")))).
  split; [apply py_strip_split|].
  split; [apply py_strip_no_outer_space|].
  split.
  { intros Hn. unfold dict_get. rewrite Hn. reflexivity. }
  split; [reflexivity|]. split.
  { destruct (str_in s known_verdicts) eqn:E.
    - apply str_in_In in E. exact E.
    - simpl. tauto. }
  split.
  { intros Hn. unfold s, dict_get. rewrite Hn. reflexivity. }
  split.
  { destruct (str_in s known_verdicts) eqn:E.
    - intros H. exact H.
    - intros H. vm_compute in H. discriminate H. }
  intros t Ht Ha. unfold s, dict_get. rewrite Ht. cbn [py_str].
  apply py_lower_ascii. exact Ha.
Qed.

Lemma for_each_entry_of (us : list pydict) :
  exists out, for_each url_entry (map VDict us) = Ok out
              /\ Forall2 entry_of us out.
Proof.
  induction us as [|u us (out & IH & HF)].
  - exists []. split; [reflexivity | constructor].
  - destruct (url_entry_entry_of u) as (e & He & Hp).
    exists (e :: out). rewrite map_cons, for_each_cons, He.
    cbn [bind]. rewrite IH. cbn [bind].
    split; [reflexivity | constructor; assumption].
Qed.

(** C6 (amended): the url loop treats the elements drawn from the [urls]
    entry one by one.  When all are mappings it returns one pair per
    mapping, in order: the url is the text of the [url] entry without the
    whitespace at its two ends (empty when the entry is absent), the
    status is the lower-cased text of the [status] entry if that is a
    known verdict and "suspicious" otherwise, so a missing or unrecognised
    status is never shown as "safe"; these are the urls of every result.
    When one element is not a mapping the loop raises [AttributeError] and
    the normaliser returns nothing. *)
Theorem urls_fail_safe (d : pydict) (items : list PyVal) :
  py_iter (dict_get d "urls" (VList [])) = Ok items ->
  (forall us, items = map VDict us ->
     exists out,
       norm_urls (VDict d) = Ok out
       /\ Forall2 (fun u e =>
            let raw := py_str (dict_get u "url" (VStr "")) in
            let s := py_lower (py_str (dict_get u "status" (VStr ""))) in
            (exists lead trail, raw = lead ++ url e ++ trail
                                /\ forallb py_isspace lead = true
                                /\ forallb py_isspace trail = true)
            /\ no_outer_space (url e)
            /\ (dict_lookup "url" u = None -> url e = [])
            /\ status e
               = (if str_in s known_verdicts then s else lit "suspicious")
            /\ In (status e) known_verdicts
            /\ (dict_lookup "status" u = None -> status e = lit "suspicious")
            /\ (status e = lit "safe" -> s = lit "safe")
            /\ (forall t, dict_lookup "status" u = Some (VStr t) ->
                          forallb is_ascii t = true ->
                          s = map ascii_lower t)) us out
       /\ (forall r, normalize (VDict d) = Ok r -> urls r = out))
  /\ (forallb is_dict items = false ->
      norm_urls (VDict d) = Raise AttributeError
      /\ forall r, normalize (VDict d) <> Ok r).
Proof.
  intros Hit. split.
  - intros us ->. destruct (for_each_entry_of us) as (out & Hloop & HF).
    assert (Hstep : norm_urls (VDict d) = Ok out).
    { unfold norm_urls, py_get, bind. rewrite Hit. exact Hloop. }
    exists out. split; [exact Hstep|]. split; [exact HF|].
    intros r Hr. apply normalize_ok_inv in Hr as (_ & _ & _ & _ & Hu & _).
    rewrite Hstep in Hu. injection Hu as ->. reflexivity.
  - intros Hd.
    assert (Hstep : norm_urls (VDict d) = Raise AttributeError).
    { unfold norm_urls, py_get, bind. rewrite Hit.
      apply for_each_url_entry_raises. exact Hd. }
    split; [exact Hstep|].
    intros r Hr. apply normalize_ok_inv in Hr as (_ & _ & _ & _ & Hu & _).
    rewrite Hstep in Hu. discriminate Hu.
Qed.

End UrlFacts.


Section RouteEdges.
Context {rt : Runtime}.

Lemma index_upload (req : Request) (file : FileStorage) (w : World) :
  method req = POST -> image_file req = Some file -> filename file <> [] ->
  index req w = analyse_upload file w.
Proof.
  intros Hm Hf Hn. unfold index. rewrite Hm, Hf.
  destruct (filename file); [contradiction Hn; reflexivity | reflexivity].
Qed.

Lemma normalize_failure_payload (msg : pystr) :
  normalize (failure_payload msg)
  = Ok {| verdict := "unknown";
          confidence := 0%float;
          reasons := [lit "Gemini error: " ++ msg];
          risky_phrases := [];
          urls := [];
          user_message := "Automatic analysis failed." |}.
Proof.
  unfold normalize, norm_risky_phrases, py_list_set. simpl.
  rewrite set_list_nil. reflexivity.
Qed.

(** X11: a POST with a named file writes it before anything else: under
    [static/uploads/] when the name is relative, at the name itself when
    it starts with a slash.  The file stays written and the path is
    recorded as analysed whether the analysis returns or raises; when the
    write fails the request raises [OSError] and nothing is recorded. *)
Theorem upload_saved_before_analysis (req : Request) (file : FileStorage)
  (w : World) :
  method req = POST -> image_file req = Some file -> filename file <> [] ->
  let path := if starts_with "/" (filename file)
              then filename file
              else lit "static/uploads/" ++ filename file in
  (fs_writable path = true ->
   snd (index req w) = {| saved := (path, content file) :: saved w;
                          analysed := path :: analysed w |})
  /\ (fs_writable path = false -> index req w = (Raise OSError, w)).
Proof.
  intros Hm Hf Hn path. rewrite (index_upload req file w Hm Hf Hn).
  unfold analyse_upload. rewrite path_join_upload. fold path.
  split; intros Hw; rewrite Hw; reflexivity.
Qed.

(** X12: when the model call fails the page is still rendered: the
    fallback badge, verdict unknown, the reason naming the failure, the
    caption unmarked, and the path of the upload. *)
Theorem index_model_failure (req : Request) (file : FileStorage) (w : World)
  (msg : pystr) :
  method req = POST -> image_file req = Some file -> filename file <> [] ->
  let path := path_join UPLOAD_FOLDER (filename file) in
  fs_writable path = true ->
  model_call path = Failed msg ->
  fst (index req w)
  = Ok {| image_path := Some path;
          sms_text := "";
          highlighted_text := ocr_caption;
          analysis :=
            Some {| a_badge := 10068%N :: lit " Unknown";
                    a_verdict := "unknown";
                    a_confidence := float_format2 0%float;
                    a_reasons := [lit "Gemini error: " ++ msg];
                    a_risky_phrases := [];
                    a_urls := [];
                    a_user_message := "Automatic analysis failed.";
                    a_recommendations := recommendations |} |}.
Proof.
  intros Hm Hf Hn path Hw Hfail. rewrite (index_upload req file w Hm Hf Hn).
  unfold analyse_upload. fold path. rewrite Hw. cbn [fst].
  unfold call_gemini_sms_image. rewrite Hfail.
  rewrite normalize_failure_payload. cbn [bind].
  unfold highlight_risky. cbn [for_each risky_phrases bind].
  rewrite highlight_no_phrases. reflexivity.
Qed.

(** X13: whatever the request and the model's reply, a page that is
    returned either has no analysis, and then it is the blank page and
    nothing was written, or it shows the saved upload with a verdict among
    the four, the badge of that verdict, at most six reasons, risky
    phrases that are all strings, url statuses among the three known
    verdicts and a message that is not empty. *)
Theorem index_page_invariants (req : Request) (w w' : World) (page : Page) :
  index req w = (Ok page, w') ->
  match analysis page with
  | None => page = blank_page /\ w' = w
  | Some a =>
      (exists file,
          image_file req = Some file
          /\ image_path page = Some (path_join UPLOAD_FOLDER (filename file))
          /\ saved w' = (path_join UPLOAD_FOLDER (filename file), content file)
                        :: saved w)
      /\ In (a_verdict a)
            [lit "safe"; lit "suspicious"; lit "phishing"; lit "unknown"]
      /\ a_badge a = badge_of (a_verdict a)
      /\ List.length (a_reasons a) <= 6
      /\ forallb is_str (a_risky_phrases a) = true
      /\ Forall (fun e => In (status e) known_verdicts) (a_urls a)
      /\ a_user_message a <> []
  end.
Proof.
  intros H.
  assert (Hblank : (Ok page, w') = (Ok blank_page, w) ->
            match analysis page with
            | None => page = blank_page /\ w' = w
            | Some _ => False
            end).
  { intros E. injection E as -> ->. split; reflexivity. }
  unfold index in H.
  destruct (method req);
    try (symmetry in H; specialize (Hblank H);
         destruct (analysis page); [contradiction | exact Hblank]).
  destruct (image_file req) as [file|] eqn:Hf;
    [|symmetry in H; specialize (Hblank H);
      destruct (analysis page); [contradiction | exact Hblank]].
  destruct (filename file) as [|c t] eqn:Hn;
    [symmetry in H; specialize (Hblank H);
     destruct (analysis page); [contradiction | exact Hblank]|].
  clear Hblank. unfold analyse_upload in H. rewrite Hn in H.
  set (path := path_join UPLOAD_FOLDER (c :: t)) in *.
  destruct (fs_writable path); [|discriminate H].
  injection H as Hres Hw.
  apply bind_ok_inv in Hres as (gem & Hgem & Hres).
  apply bind_ok_inv in Hres as (h & Hh & Hres).
  injection Hres as <-. subst w'. cbn [analysis image_path].
  unfold call_gemini_sms_image in Hgem.
  split; [exists file; rewrite Hn; repeat split; reflexivity|].
  cbn [a_verdict a_badge a_reasons a_risky_phrases a_urls a_user_message].
  split; [eapply verdict_always_known; exact Hgem|].
  split; [reflexivity|].
  split; [eapply reasons_at_most_six; exact Hgem|].
  split.
  { destruct (forallb is_str (risky_phrases gem)) eqn:E; [reflexivity|].
    rewrite (highlight_risky_not_strings _ _ E) in Hh. discriminate Hh. }
  split; [eapply urls_status_known; exact Hgem|].
  eapply user_message_nonempty; exact Hgem.
Qed.

End RouteEdges.

(** * Concrete runs of the further properties *)

Lemma risky_phrases_witness :
  py_iter (dict_get reply_phishing "risky_phrases" (VList []))
  = Ok [VStr "OTP"; VStr "urgent"]
  /\ forallb hashable [VStr "OTP"; VStr "urgent"] = true
  /\ exists ps, @norm_risky_phrases rt_offline (VDict reply_phishing) = Ok ps
                /\ incl ps [VStr "OTP"; VStr "urgent"].
Proof.
  split; [reflexivity|]. split; [reflexivity|].
  destruct (proj1 (proj2 (@risky_phrases_from_entry rt_offline reply_phishing))
              [VStr "OTP"; VStr "urgent"] eq_refl eq_refl)
    as (ps & H1 & H2 & _).
  exists ps. split; assumption.
Defined.

Lemma unknown_key_witness :
  str_in "language" field_names = false
  /\ @normalize rt_offline
       (VDict ([(lit "verdict", VStr "safe")]
               ++ (lit "language", VStr "en") :: [(lit "urls", VList [])]))
     = @normalize rt_offline
         (VDict ([(lit "verdict", VStr "safe")] ++ [(lit "urls", VList [])])).
Proof.
  split; [reflexivity|].
  apply (@unknown_key_ignored rt_offline). reflexivity.
Defined.

Lemma reasons_of_string_witness :
  dict_lookup "reasons" [(lit "reasons", VStr "too urgent")]
  = Some (VStr "too urgent")
  /\ @norm_reasons rt_offline (VDict [(lit "reasons", VStr "too urgent")])
     = Ok [lit "t"; lit "o"; lit "o"; lit " "; lit "u"; lit "r"].
Proof.
  split; [reflexivity|].
  apply (@reasons_of_string rt_offline [(lit "reasons", VStr "too urgent")]
           (lit "too urgent")).
  reflexivity.
Defined.

Lemma urls_entry_not_mapping_witness :
  py_iter (dict_get [(lit "urls", VList [VStr "http://x"])] "urls" (VList []))
  = Ok [VStr "http://x"]
  /\ forallb is_dict [VStr "http://x"] = false
  /\ @norm_urls rt_offline (VDict [(lit "urls", VList [VStr "http://x"])])
     = Raise AttributeError.
Proof.
  split; [reflexivity|]. split; [reflexivity|].
  apply (@urls_entry_not_mapping rt_offline
           [(lit "urls", VList [VStr "http://x"])] [VStr "http://x"]);
    reflexivity.
Defined.

Lemma confidence_nan_witness :
  PrimFloat.is_nan nan = true
  /\ @norm_confidence rt_offline (VDict [(lit "confidence", VFloat nan)])
     = 1%float.
Proof.
  split; [reflexivity|].
  apply (@confidence_nan_is_one rt_offline
           (VDict [(lit "confidence", VFloat nan)]) nan); reflexivity.
Defined.

Lemma text_fields_trimmed_witness :
  exists r, @normalize rt_offline (VDict reply_phishing) = Ok r
            /\ user_message r <> []
            /\ @no_outer_space rt_offline (user_message r).
Proof.
  eexists. split; [reflexivity|].
  split; apply (@text_fields_trimmed rt_offline (VDict reply_phishing));
    reflexivity.
Defined.

Lemma badge_follows_verdict_witness :
  exists r, @normalize rt_offline (VDict reply_phishing) = Ok r
            /\ badge_of (verdict r) = 10060%N :: lit " Phishing".
Proof.
  eexists. split; [reflexivity|].
  destruct (@badge_follows_verdict rt_offline (VDict reply_phishing) _ eq_refl)
    as [[E _]|[[E _]|[[_ B]|[E _]]]];
    [discriminate E | discriminate E | exact B | discriminate E].
Defined.

Lemma absent_phrases_witness :
  (forall p, In p [lit "password"] ->
             @occurs rt_offline p (html_escape "Your OTP is urgent") = false)
  /\ @highlight_phrases rt_offline "Your OTP is urgent" [lit "password"]
     = lit "Your OTP is urgent".
Proof.
  assert (H : forall p, In p [lit "password"] ->
                @occurs rt_offline p (html_escape "Your OTP is urgent") = false)
    by (intros p [<-|[]]; reflexivity).
  split; [exact H|].
  exact (@absent_phrases_ignored rt_offline (lit "Your OTP is urgent")
           [lit "password"] H).
Defined.

Lemma no_phrases_witness :
  In 98%N (@highlight_phrases rt_offline "a<b" []) /\ 98%N <> 60%N.
Proof.
  assert (H : In 98%N (@highlight_phrases rt_offline "a<b" []))
    by (vm_compute; tauto).
  split; [exact H|].
  exact (proj1 (proj2 (@no_phrases_escaped_only rt_offline (lit "a<b")) _ H)).
Defined.

Lemma highlight_risky_witness :
  forallb is_str [VStr "OTP"; VInt 5] = false
  /\ @highlight_risky rt_offline ocr_caption [VStr "OTP"; VInt 5]
     = Raise TypeError.
Proof.
  split; [reflexivity|].
  apply (proj2 (@highlight_risky_needs_strings rt_offline ocr_caption
                  [VStr "OTP"; VInt 5])).
  reflexivity.
Defined.

Lemma upload_saved_witness :
  method post_sms_png = POST
  /\ image_file post_sms_png = Some sms_png
  /\ filename sms_png <> []
  /\ @fs_writable rt_online (lit "static/uploads/sms.png") = true
  /\ snd (@index rt_online post_sms_png no_uploads)
     = {| saved := [(lit "static/uploads/sms.png", content sms_png)];
          analysed := [lit "static/uploads/sms.png"] |}.
Proof.
  assert (Hn : filename sms_png <> []) by discriminate.
  split; [reflexivity|]. split; [reflexivity|]. split; [exact Hn|].
  split; [reflexivity|].
  apply (proj1 (@upload_saved_before_analysis rt_online post_sms_png sms_png
                  no_uploads eq_refl eq_refl Hn)).
  reflexivity.
Defined.

Lemma index_model_failure_witness :
  method post_sms_png = POST
  /\ image_file post_sms_png = Some sms_png
  /\ filename sms_png <> []
  /\ @model_call rt_offline (path_join UPLOAD_FOLDER (filename sms_png))
     = Failed "timeout"
  /\ exists page, fst (@index rt_offline post_sms_png no_uploads) = Ok page
                  /\ highlighted_text page = ocr_caption.
Proof.
  assert (Hn : filename sms_png <> []) by discriminate.
  split; [reflexivity|]. split; [reflexivity|]. split; [exact Hn|].
  split; [reflexivity|].
  eexists. split.
  - apply (@index_model_failure rt_offline post_sms_png sms_png no_uploads
             (lit "timeout") eq_refl eq_refl Hn); reflexivity.
  - reflexivity.
Defined.

Lemma index_page_witness :
  exists page w',
    @index rt_online post_sms_png no_uploads = (Ok page, w')
    /\ exists a, analysis page = Some a
                 /\ a_badge a = badge_of (a_verdict a)
                 /\ List.length (a_reasons a) <= 6.
Proof.
  eexists. eexists. split; [vm_compute; reflexivity|].
  eexists. split; [reflexivity|].
  pose proof (@index_page_invariants rt_online post_sms_png no_uploads _ _
                eq_refl) as H.
  cbn [analysis] in H. destruct H as (_ & _ & Hb & Hr & _).
  split; [exact Hb | exact Hr].
Defined.

(** * Concrete runs of the revised properties *)

(** C6 (counterexample): an element of [urls] that is a bare URL string is
    not normalised; the loop raises at line 111. *)
Lemma urls_bare_string_raises :
  @normalize rt_offline (VDict [(lit "urls", VList [VStr "http://x"])])
  = Raise AttributeError.
Proof. reflexivity. Qed.

Lemma urls_fail_safe_witness :
  py_iter (dict_get reply_urls_mixed "urls" (VList []))
  = Ok (map VDict [ [(lit "url", VStr " http://x ");
                     (lit "status", VStr "weird")];
                    [(lit "url", VStr "https://bank.example/login  ");
                     (lit "status", VStr "SAFE")];
                    [] ])
  /\ @norm_urls rt_offline (VDict reply_urls_mixed)
     = Ok [ {| url := "http://x"; status := "suspicious" |};
            {| url := "https://bank.example/login"; status := "safe" |};
            {| url := ""; status := "suspicious" |} ]
  /\ exists out,
       @norm_urls rt_offline (VDict reply_urls_mixed) = Ok out
       /\ Forall (fun e => @no_outer_space rt_offline (url e)
                           /\ In (status e) known_verdicts) out.
Proof.
  split; [reflexivity|]. split; [reflexivity|].
  destruct (proj1 (@urls_fail_safe rt_offline reply_urls_mixed _ eq_refl)
              [ [(lit "url", VStr " http://x "); (lit "status", VStr "weird")];
                [(lit "url", VStr "https://bank.example/login  ");
                 (lit "status", VStr "SAFE")];
                [] ] eq_refl) as (out & Hstep & HF & _).
  exists out. split; [exact Hstep|].
  clear Hstep. induction HF as [|u e us out' (_ & Hs & _ & _ & Hk & _) _ IH];
    constructor; [split; assumption | exact IH].
Defined.

(** C8 (counterexample): the integer 10^400 is over range, yet the
    conversion raises [OverflowError] and the confidence is 0.0, not
    1.0. *)
Lemma confidence_huge_int_is_zero :
  @py_float rt_offline (VInt (10 ^ 400)) = Raise OverflowError
  /\ @norm_confidence rt_offline (VDict [(lit "confidence", VInt (10 ^ 400))])
     = 0%float.
Proof. split; vm_compute; reflexivity. Qed.

Lemma confidence_clamped_witness :
  dict_lookup "confidence" [(lit "confidence", VInt 2)] = Some (VInt 2)
  /\ (- 2 ^ 53 < 2 < 2 ^ 53)%Z
  /\ @norm_confidence rt_offline (VDict [(lit "confidence", VInt 2)])
     = 1%float.
Proof.
  assert (Hr : (- 2 ^ 53 < 2 < 2 ^ 53)%Z) by (split; reflexivity).
  split; [reflexivity|]. split; [exact Hr|].
  destruct (@confidence_clamped rt_offline
              (VDict [(lit "confidence", VInt 2)]))
    as (_ & _ & _ & _ & _ & _ & _ & Hint & _).
  exact (Hint _ 2%Z eq_refl eq_refl Hr).
Defined.

Lemma phrases_longest_first_witness :
  In (lit "act now") phrases_with_tie
  /\ In (lit "now") phrases_with_tie
  /\ py_len (lit "now") < py_len (lit "act now")
  /\ (exists l1 l2 l3,
        @phrase_order rt_offline phrases_with_tie
        = l1 ++ lit "act now" :: l2 ++ lit "now" :: l3)
  /\ filter (fun p => (py_len p =? 3)%nat)
       (@phrase_order rt_offline phrases_with_tie)
     = [lit "now"; lit "pay"].
Proof.
  assert (H1 : In (lit "act now") phrases_with_tie)
    by (right; left; reflexivity).
  assert (H2 : In (lit "now") phrases_with_tie)
    by (left; reflexivity).
  assert (H3 : py_len (lit "now") < py_len (lit "act now"))
    by (vm_compute; lia).
  destruct (@phrases_longest_first rt_offline (lit "act now") phrases_with_tie)
    as (_ & _ & _ & Hord & _ & Hstable).
  split; [exact H1|]. split; [exact H2|]. split; [exact H3|].
  split; [exact (Hord _ _ H1 H2 H3) | exact (Hstable 3)].
Defined.
